(** * ddtrace.tracer: span creation, sampling propagation and the flush protocol

    A shallow embedding of [ddtrace/tracer.py].  The [Tracer] object, the
    per-thread "current span" buffer and the things the tracer talks to (the
    identifier generator, the agent writer, the debug logger) are gathered in
    one explicit state, [World]; every method of the class is a computation
    in a small state-and-exception monad over it.  A thread of execution is
    named by a natural number that each method receives as its first
    argument. *)

From Stdlib Require Import ZArith List Lia.
From stdpp Require Import gmap strings list fin_maps.

Local Open Scope Z_scope.

(** ** Python values, truthiness, exceptions *)

Inductive PyVal : Type :=
| PyNone
| PyInt (z : Z)
| PyStr (s : string).

Inductive PyExc : Type :=
| AttributeError (attr : string)
| Exception (msg : string).

(** [bool(s)] for a [str]: only the empty string is falsy. *)
Definition str_truthy (s : string) : bool :=
  match s with
  | EmptyString => false
  | String _ _ => true
  end.

(** [bool(n)] for an [int]: only zero is falsy. *)
Definition int_truthy (n : Z) : bool := negb (n =? 0).

(** [x or y] where [x] is [None] or a [str] and [y] is anything of the same
    kind: the value of [x] when it is truthy, else [y]. *)
Definition or_str (x y : option string) : option string :=
  match x with
  | Some s => if str_truthy s then x else y
  | None => y
  end.

(** [x or d] with a non-optional right operand. *)
Definition or_default {A : Type} (truthy : A -> bool) (x : option A) (d : A) : A :=
  match x with
  | Some a => if truthy a then a else d
  | None => d
  end.

(** [x is not None] *)
Definition is_not_None {A : Type} (x : option A) : bool :=
  match x with
  | Some _ => true
  | None => false
  end.

(** ** Spans *)

Module Span.

(** The attributes of a [Span] the tracer reads or writes.  [_parent] is
    the reference set by [Tracer.trace]; timing, tags and metrics are owned
    by the span itself and play no part in the tracer's bookkeeping. *)
#[local] Unset Elimination Schemes.
Inductive t : Type := Build {
  name : string;
  service : option string;
  resource : option string;
  span_type : option string;
  trace_id : Z;
  span_id : Z;
  parent_id : option Z;
  sampled : bool;
  _parent : option t
}.
#[local] Set Elimination Schemes.

(** [span.sampled = b] *)
Definition set_sampled (b : bool) (s : t) : t :=
  Build (name s) (service s) (resource s) (span_type s)
        (trace_id s) (span_id s) (parent_id s) b (_parent s).

(** [span._parent = p] *)
Definition set__parent (p : option t) (s : t) : t :=
  Build (name s) (service s) (resource s) (span_type s)
        (trace_id s) (span_id s) (parent_id s) (sampled s) p.

(** [bool(span)]: a span object defines neither [__bool__] nor [__len__],
    so every span is truthy and only [None] is falsy. *)
Definition truthy (s : option t) : bool := is_not_None s.

End Span.

(** ** The collaborators of the tracer *)

Module AgentWriter.

(** Modelled from the spec: the exporter ([ddtrace/writer.py] is not part of
    the sources), built from a host and a port.  [serial] stands for the
    identity of the Python object: every construction gets the next unused
    number. *)
Record t : Type := Build {
  serial : nat;
  hostname : string;
  port : Z
}.

End AgentWriter.

(** Modelled from the spec: the sampling policy ([ddtrace/sampler.py] is not
    part of the sources).  "given a root span, marks it sampled/unsampled";
    "the default policy always marks sampled". *)
Record Sampler : Type := { sample : Span.t -> bool }.

Definition AllSampler : Sampler := {| sample := fun _ => true |}.

(** One entry of the service registry: [{"app": app, "app_type": app_type}]. *)
Record ServiceInfo : Type := { app : string; app_type : string }.

(** One call [writer.write(spans, services)] as the exporter sees it. *)
Record Delivery : Type := {
  to_writer : AgentWriter.t;
  spans_sent : list Span.t;
  services_sent : gmap string ServiceInfo
}.

(** What [log.debug] was asked to emit. *)
Inductive LogRecord : Type :=
| LogWriting (count : nat) (enabled : bool)
| LogSpan (span : Span.t)
| LogServiceInfo (service app app_type : string).

(** ** The state *)

Record World : Type := mkWorld {
  (* the attributes of the Tracer object *)
  enabled : bool;
  writer : option AgentWriter.t;
  sampler : Sampler;
  _spans : list Span.t;
  span_buffer : gmap nat (option Span.t);
  _services : gmap string ServiceInfo;
  debug_logging : bool;
  (* the environment *)
  id_source : nat -> Z;
  ids_drawn : nat;
  writers_made : nat;
  exported : list Delivery;
  log_output : list LogRecord
}.

Definition set_enabled (v : bool) (w : World) : World :=
  mkWorld v (writer w) (sampler w) (_spans w) (span_buffer w) (_services w)
          (debug_logging w) (id_source w) (ids_drawn w) (writers_made w)
          (exported w) (log_output w).

Definition set_writer (v : option AgentWriter.t) (w : World) : World :=
  mkWorld (enabled w) v (sampler w) (_spans w) (span_buffer w) (_services w)
          (debug_logging w) (id_source w) (ids_drawn w) (writers_made w)
          (exported w) (log_output w).

Definition set_sampler (v : Sampler) (w : World) : World :=
  mkWorld (enabled w) (writer w) v (_spans w) (span_buffer w) (_services w)
          (debug_logging w) (id_source w) (ids_drawn w) (writers_made w)
          (exported w) (log_output w).

Definition set__spans (v : list Span.t) (w : World) : World :=
  mkWorld (enabled w) (writer w) (sampler w) v (span_buffer w) (_services w)
          (debug_logging w) (id_source w) (ids_drawn w) (writers_made w)
          (exported w) (log_output w).

Definition set_span_buffer (v : gmap nat (option Span.t)) (w : World) : World :=
  mkWorld (enabled w) (writer w) (sampler w) (_spans w) v (_services w)
          (debug_logging w) (id_source w) (ids_drawn w) (writers_made w)
          (exported w) (log_output w).

Definition set__services (v : gmap string ServiceInfo) (w : World) : World :=
  mkWorld (enabled w) (writer w) (sampler w) (_spans w) (span_buffer w) v
          (debug_logging w) (id_source w) (ids_drawn w) (writers_made w)
          (exported w) (log_output w).

Definition set_debug_logging (v : bool) (w : World) : World :=
  mkWorld (enabled w) (writer w) (sampler w) (_spans w) (span_buffer w)
          (_services w) v (id_source w) (ids_drawn w) (writers_made w)
          (exported w) (log_output w).

Definition set_ids_drawn (v : nat) (w : World) : World :=
  mkWorld (enabled w) (writer w) (sampler w) (_spans w) (span_buffer w)
          (_services w) (debug_logging w) (id_source w) v (writers_made w)
          (exported w) (log_output w).

Definition set_writers_made (v : nat) (w : World) : World :=
  mkWorld (enabled w) (writer w) (sampler w) (_spans w) (span_buffer w)
          (_services w) (debug_logging w) (id_source w) (ids_drawn w) v
          (exported w) (log_output w).

Definition set_exported (v : list Delivery) (w : World) : World :=
  mkWorld (enabled w) (writer w) (sampler w) (_spans w) (span_buffer w)
          (_services w) (debug_logging w) (id_source w) (ids_drawn w)
          (writers_made w) v (log_output w).

Definition set_log_output (v : list LogRecord) (w : World) : World :=
  mkWorld (enabled w) (writer w) (sampler w) (_spans w) (span_buffer w)
          (_services w) (debug_logging w) (id_source w) (ids_drawn w)
          (writers_made w) (exported w) v.

(** ** The monad: state passing, with Python exceptions *)

Inductive Outcome (A : Type) : Type :=
| Returned (a : A)
| Raised (e : PyExc).
Arguments Returned {A} a.
Arguments Raised {A} e.

Definition M (A : Type) : Type := World -> Outcome A * World.

Definition ret {A : Type} (a : A) : M A := fun w => (Returned a, w).

Definition raise {A : Type} (e : PyExc) : M A := fun w => (Raised e, w).

Definition bind {A B : Type} (c : M A) (k : A -> M B) : M B :=
  fun w =>
    match c w with
    | (Returned a, w') => k a w'
    | (Raised e, w') => (Raised e, w')
    end.

Definition gets {A : Type} (f : World -> A) : M A := fun w => (Returned (f w), w).

Definition modify (f : World -> World) : M unit := fun w => (Returned tt, f w).

Declare Scope py_scope.
Delimit Scope py_scope with py.
Notation "x <- c ;; k" := (bind c (fun x => k))
  (at level 20, c at level 99, k at level 200, only parsing) : py_scope.
Notation "c ;; k" := (bind c (fun _ => k))
  (at level 100, k at level 200, right associativity, only parsing) : py_scope.
Local Open Scope py_scope.

(** [for x in xs: body(x)] *)
Fixpoint for_each {A : Type} (xs : list A) (body : A -> M unit) : M unit :=
  match xs with
  | [] => ret tt
  | x :: rest => body x ;; for_each rest body
  end.

(** The world a computation leaves behind, and what it returned. *)
Definition world_after {A : Type} (c : M A) (w : World) : World := snd (c w).
Definition outcome_of {A : Type} (c : M A) (w : World) : Outcome A := fst (c w).

(** ** Identifiers, the span constructor, the thread-local buffer, the writer *)

(** Modelled from the spec: the identifier generator of [ddtrace/span.py]
    (not part of the sources).  "identifier generation is assumed
    infallible": the next identifier is the next element of the world's
    stream [id_source]. *)
Definition _new_id : M Z :=
  n <- gets ids_drawn ;;
  src <- gets id_source ;;
  modify (set_ids_drawn (S n)) ;;
  ret (src n).

(** Modelled from the spec: the constructor [Span(tracer, name, service,
    resource, span_type, trace_id, parent_id)] of [ddtrace/span.py] (not part
    of the sources).  It stores the attributes it is given; "a trace
    identifier ... and a span identifier ..., generated at creation": a
    trace identifier is generated when none is passed, a span identifier
    always.  A new span has no [_parent] and starts out sampled, the value
    the sampling policy may then overwrite. *)
Definition new_Span (name : string) (service resource span_type : option string)
    (trace_id parent_id : option Z) : M Span.t :=
  tid <- match trace_id with
         | Some i => ret i
         | None => _new_id
         end ;;
  sid <- _new_id ;;
  ret (Span.Build name service resource span_type tid sid parent_id true None).

Module ThreadLocalSpanBuffer.

(** Modelled from the spec: the execution-context register
    ([ddtrace/buffer.py] is not part of the sources).  "One slot per logical
    execution context; holds zero or one Span reference." *)
Definition get (thread : nat) (buf : gmap nat (option Span.t)) : option Span.t :=
  default None (buf !! thread).

Definition set (thread : nat) (span : option Span.t)
    (buf : gmap nat (option Span.t)) : gmap nat (option Span.t) :=
  <[thread := span]> buf.

End ThreadLocalSpanBuffer.

(** [self.span_buffer.get()] and [self.span_buffer.set(span)], called from
    [thread]. *)
Definition span_buffer_get (thread : nat) : M (option Span.t) :=
  gets (fun self => ThreadLocalSpanBuffer.get thread (span_buffer self)).

Definition span_buffer_set (thread : nat) (span : option Span.t) : M unit :=
  modify (fun self =>
    set_span_buffer (ThreadLocalSpanBuffer.set thread span (span_buffer self)) self).

(** [AgentWriter(hostname, port)]: a new exporter object. *)
Definition new_AgentWriter (hostname : string) (port : Z) : M AgentWriter.t :=
  n <- gets writers_made ;;
  modify (set_writers_made (S n)) ;;
  ret (AgentWriter.Build n hostname port).

(** Modelled from the spec: [writer.write(spans, services)], which "accepts
    a finite ordered sequence of finished spans and a snapshot of service
    metadata".  The exporter is outside the core; all that is kept of the
    call is that it was made, to which writer and with which arguments. *)
Definition AgentWriter_write (aw : AgentWriter.t) (spans : list Span.t)
    (services : gmap string ServiceInfo) : M unit :=
  modify (fun w => set_exported (exported w ++ [Build_Delivery aw spans services]) w).

(** [log.debug(...)] *)
Definition log_debug (r : LogRecord) : M unit :=
  modify (fun w => set_log_output (log_output w ++ [r]) w).

(** ** The methods of [Tracer] *)

Definition DEFAULT_HOSTNAME : string := "localhost".
Definition DEFAULT_PORT : Z := 7777.

Definition configure (enabled : option bool) (hostname : option string)
    (port : option Z) (sampler : option Sampler) : M unit :=
  match enabled with
  | Some e => modify (set_enabled e)
  | None => ret tt
  end ;;
  (if is_not_None hostname || is_not_None port then
     aw <- new_AgentWriter (or_default str_truthy hostname DEFAULT_HOSTNAME)
                           (or_default int_truthy port DEFAULT_PORT) ;;
     modify (set_writer (Some aw))
   else ret tt) ;;
  match sampler with
  | Some s => modify (set_sampler s)
  | None => ret tt
  end.

Definition trace (thread : nat) (name : string)
    (service resource span_type : option string) : M Span.t :=
  parent <- span_buffer_get thread ;;
  span <- match parent with
          | Some p =>
              (* if we have a current span link the parent + child nodes. *)
              span <- new_Span name (or_str service (Span.service p))
                               resource span_type
                               (Some (Span.trace_id p)) (Some (Span.span_id p)) ;;
              ret (Span.set_sampled (Span.sampled p)
                     (Span.set__parent (Some p) span))
          | None =>
              span <- new_Span name service resource span_type None None ;;
              policy <- gets sampler ;;
              ret (Span.set_sampled (sample policy span) span)
          end ;;
  (* Note the current trace. *)
  span_buffer_set thread (Some span) ;;
  ret span.

Definition current_span (thread : nat) : M (option Span.t) :=
  span_buffer_get thread.

Definition clear_current_span (thread : nat) : M unit :=
  span_buffer_set thread None.

Definition write (spans : list Span.t) : M unit :=
  match spans with
  | [] => ret tt (* nothing to do *)
  | _ :: _ =>
      dbg <- gets debug_logging ;;
      (if dbg then
         en <- gets enabled ;;
         log_debug (LogWriting (length spans) en) ;;
         for_each spans (fun span => log_debug (LogSpan span))
       else ret tt) ;;
      en <- gets enabled ;;
      if en then
        (* only submit the spans if we're actually enabled. *)
        wr <- gets writer ;;
        match wr with
        | Some aw =>
            services <- gets _services ;;
            AgentWriter_write aw spans services
        | None => raise (AttributeError "write")
        end
      else ret tt
  end.

(** The body of [with self._spans_lock:] in [record]; it runs as one
    indivisible step and yields the local variable [spans]. *)
Definition record_locked (thread : nat) (span : Span.t) : M (list Span.t) :=
  modify (fun self => set__spans (_spans self ++ [span]) self) ;;
  let parent := Span._parent span in
  span_buffer_set thread parent ;;
  if Span.truthy parent then ret []
  else
    spans <- gets _spans ;;
    modify (set__spans []) ;;
    ret spans.

Definition record (thread : nat) (span : Span.t) : M unit :=
  spans <- record_locked thread span ;;
  wr <- gets writer ;;
  if is_not_None wr && Span.sampled span then write spans else ret tt.

Definition set_service_info (service app app_type : string) : M unit :=
  modify (fun self =>
    set__services (<[service := Build_ServiceInfo app app_type]> (_services self)) self) ;;
  dbg <- gets debug_logging ;;
  if dbg then log_debug (LogServiceInfo service app app_type) else ret tt.

(** [Tracer()]: the constructor, run in an environment that has produced
    [drawn] identifiers and [made] writers so far. *)
Definition blank (src : nat -> Z) (drawn made : nat) : World :=
  mkWorld false None AllSampler [] ∅ ∅ false src drawn made [] [].

Definition Tracer (src : nat -> Z) (drawn made : nat) : World :=
  let self :=
    world_after
      (configure (Some true) (Some DEFAULT_HOSTNAME) (Some DEFAULT_PORT) (Some AllSampler))
      (blank src drawn made) in
  set_debug_logging false
    (set__services ∅ (set_span_buffer ∅ (set__spans [] self))).

(** ** Finishing spans, and the decorator *)

(** Modelled from the spec: [Span.finish] ([ddtrace/span.py] is not part of
    the sources).  "caller finishes span -> Span notifies Tracer": apart
    from timing, finishing a span is [record]ing it with its tracer, from the
    thread that finishes it. *)
Definition Span_finish (thread : nat) (span : Span.t) : M unit :=
  record thread span.

(** Modelled from the spec: [with span: body], the span being its own
    context manager ([ddtrace/span.py] is not part of the sources).  The
    span "is finished when the call returns or raises"; finishing "must not
    swallow the original error". *)
Definition with_span {A : Type} (thread : nat) (span : Span.t) (body : M A) : M A :=
  fun w =>
    match body w with
    | (out, w1) =>
        match Span_finish thread span w1 with
        | (Returned _, w2) => (out, w2)
        | (Raised e, w2) => (Raised e, w2)
        end
    end.

(** The arguments of a call, [*args] and [**kwargs]. *)
Record CallArgs : Type := { args : list PyVal; kwargs : list (string * PyVal) }.

(** A Python function: its [__name__] and what calling it from a thread
    does. *)
Record PyFunc : Type := {
  __name__ : string;
  call : nat -> CallArgs -> M PyVal
}.

Definition wrap (name service resource span_type : option string)
    (func : PyFunc) : PyFunc :=
  let span_name :=
    match name with
    | None => __name__ func
    | Some n => n
    end in
  {| __name__ := __name__ func;
     call := fun thread a =>
       span <- trace thread span_name service resource span_type ;;
       with_span thread span (call func thread a) ;;
       ret PyNone |}.

(** ** Sequences of calls *)

(** Span creations and finishes, each made from some thread.  [Finish]
    names the span whose [finish] is called. *)
Inductive Call : Type :=
| Start (thread : nat) (name : string) (service resource span_type : option string)
| Finish (thread : nat) (span : Span.t).

Definition perform (c : Call) : M unit :=
  match c with
  | Start thread name service resource span_type =>
      trace thread name service resource span_type ;; ret tt
  | Finish thread span => Span_finish thread span
  end.

Fixpoint run (calls : list Call) : M unit :=
  match calls with
  | [] => ret tt
  | c :: rest => perform c ;; run rest
  end.

(** The spans a sequence of calls finishes, in order. *)
Fixpoint finished (calls : list Call) : list Span.t :=
  match calls with
  | [] => []
  | Start _ _ _ _ _ :: rest => finished rest
  | Finish _ span :: rest => span :: finished rest
  end.

(** The lists handed to the exporter, in the order of the calls. *)
Definition delivered (w : World) : list (list Span.t) :=
  map spans_sent (exported w).

(** The root of the trace a span belongs to: the end of its [_parent]
    chain. *)
Fixpoint root_of (s : Span.t) : Span.t :=
  match s with
  | Span.Build _ _ _ _ _ _ _ _ (Some p) => root_of p
  | Span.Build _ _ _ _ _ _ _ _ None => s
  end.

(** Whether [record] of this span, in this state of the tracer, reaches the
    exporter: the span has no parent, a writer is set, the span is sampled
    and the tracer is enabled. *)
Definition flushes (w : World) (s : Span.t) : bool :=
  negb (Span.truthy (Span._parent s)) && is_not_None (writer w)
  && Span.sampled s && enabled w.

(** ** Auxiliary notions for the statements *)

(** The attributes [record], [write] and [trace] never assign. *)
Definition same_setup (w w' : World) : Prop :=
  enabled w' = enabled w /\ writer w' = writer w /\ sampler w' = sampler w /\
  _services w' = _services w /\ debug_logging w' = debug_logging w /\
  id_source w' = id_source w /\ writers_made w' = writers_made w.

(** The state [write] leaves when it is given a non-empty list: the debug
    dump, if asked for. *)
Definition dumped (spans : list Span.t) (w : World) : World :=
  if debug_logging w
  then set_log_output
         (log_output w ++ LogWriting (length spans) (enabled w) :: map LogSpan spans) w
  else w.

(** The span [trace] builds when the calling thread has no current span,
    before the sampling policy has seen it. *)
Definition fresh_root (name : string) (service resource span_type : option string)
    (w : World) : Span.t :=
  Span.Build name service resource span_type
             (id_source w (ids_drawn w)) (id_source w (S (ids_drawn w)))
             None true None.

(** Along the [_parent] chain of a span every [sampled] flag is the one of
    the parent: what [trace] establishes when it links a child. *)
Fixpoint sampling_inherited (s : Span.t) : bool :=
  match s with
  | Span.Build _ _ _ _ _ _ _ smp (Some p) =>
      Bool.eqb smp (Span.sampled p) && sampling_inherited p
  | Span.Build _ _ _ _ _ _ _ _ None => true
  end.

(** ** Concrete worlds and scenarios *)

(** A new tracer in a new environment whose identifiers are 0, 1, 2, ... *)
Definition new_tracer : World := Tracer Z.of_nat 0 0.

(** The same tracer once thread 1 has opened a span for service "web". *)
Definition one_open_span : Outcome Span.t * World :=
  trace 1 "web.request" (Some "web") None None new_tracer.

Definition open_span : Span.t :=
  match fst one_open_span with
  | Returned s => s
  | Raised _ => fresh_root "web.request" (Some "web") None None new_tracer
  end.

(** A sampling policy that rejects every trace. *)
Definition NoSampler : Sampler := {| sample := fun _ => false |}.

(** Two traces built from two threads: each opens a root, then a child; the
    spans finish in the order A2, B2, B1, A1. *)
Definition two_traces (tA tB : nat) : M (Span.t * Span.t * Span.t * Span.t) :=
  a1 <- trace tA "A1" None None None ;;
  b1 <- trace tB "B1" None None None ;;
  a2 <- trace tA "A2" None None None ;;
  b2 <- trace tB "B2" None None None ;;
  Span_finish tA a2 ;;
  Span_finish tB b2 ;;
  Span_finish tB b1 ;;
  Span_finish tA a1 ;;
  ret (a1, a2, b1, b2).

(** The four spans [two_traces 1 2] makes on a new tracer. *)
Definition span_A1 : Span.t := Span.Build "A1" None None None 0 1 None true None.
Definition span_B1 : Span.t := Span.Build "B1" None None None 2 3 None true None.
Definition span_A2 : Span.t :=
  Span.Build "A2" None None None 0 4 (Some 1) true (Some span_A1).
Definition span_B2 : Span.t :=
  Span.Build "B2" None None None 2 5 (Some 3) true (Some span_B1).

(** One delivery per trace, each with that trace's spans only, in either
    order. *)
Definition delivered_per_trace (a1 a2 b1 b2 : Span.t) (ds : list (list Span.t)) : Prop :=
  ds = [[a2; a1]; [b2; b1]] \/ ds = [[b2; b1]; [a2; a1]].

(** A trace whose root the sampling policy rejects: a root and a child,
    finished child first. *)
Definition rejected_trace : M (Span.t * Span.t) :=
  configure None None None (Some NoSampler) ;;
  r <- trace 1 "root" None None None ;;
  c <- trace 1 "child" None None None ;;
  Span_finish 1 c ;;
  Span_finish 1 r ;;
  ret (r, c).

(** The two spans [rejected_trace] makes on a new tracer. *)
Definition rejected_root : Span.t :=
  Span.Build "root" None None None 0 1 None false None.

Definition rejected_child : Span.t :=
  Span.Build "child" None None None 0 2 (Some 1) false (Some rejected_root).




(** A tracer whose writer was configured for agent:9000. *)
Definition agent_9000 : World :=
  world_after (configure None (Some "agent") (Some 9000) None) new_tracer.

(** A function that takes anything and returns 1, and one that raises. *)
Definition constant_one : PyFunc :=
  {| __name__ := "one"; call := fun _ _ => ret (PyInt 1) |}.

Definition failing : PyFunc :=
  {| __name__ := "failing"; call := fun _ _ => raise (Exception "boom") |}.

Definition no_args : CallArgs := {| args := []; kwargs := [] |}.

(** ** Every public method, in any order *)

(** One call of a method of the tracer.  [wrap] is left out: what its
    wrapper does depends on the function it is given. *)
Inductive Method : Type :=
| MConfigure (enabled : option bool) (hostname : option string)
             (port : option Z) (sampler : option Sampler)
| MTrace (thread : nat) (name : string) (service resource span_type : option string)
| MCurrentSpan (thread : nat)
| MClearCurrentSpan (thread : nat)
| MRecord (thread : nat) (span : Span.t)
| MWrite (spans : list Span.t)
| MSetServiceInfo (service app app_type : string).

Definition invoke (m : Method) : M unit :=
  match m with
  | MConfigure enabled hostname port sampler => configure enabled hostname port sampler
  | MTrace thread name service resource span_type =>
      trace thread name service resource span_type ;; ret tt
  | MCurrentSpan thread => current_span thread ;; ret tt
  | MClearCurrentSpan thread => clear_current_span thread
  | MRecord thread span => record thread span
  | MWrite spans => write spans
  | MSetServiceInfo service app app_type => set_service_info service app app_type
  end.

Fixpoint invoke_all (ms : list Method) : M unit :=
  match ms with
  | [] => ret tt
  | m :: rest => invoke m ;; invoke_all rest
  end.

(** Along the [_parent] chain of a span every link is the one [trace]
    makes: the child has the trace identifier of its parent and the span
    identifier of its parent as parent identifier; the span at the end has
    no parent identifier. *)
Fixpoint trace_linked (s : Span.t) : bool :=
  match s with
  | Span.Build _ _ _ _ tid _ pid _ (Some p) =>
      (tid =? Span.trace_id p)
      && match pid with
         | Some i => i =? Span.span_id p
         | None => false
         end
      && trace_linked p
  | Span.Build _ _ _ _ _ _ pid _ None => negb (is_not_None pid)
  end.

(** The example of the docstring of [trace], from one thread, followed by
    the finish of the last span. *)
Definition docstring_example (thread : nat) : M (Span.t * Span.t * Span.t) :=
  parent <- trace thread "parent" None None None ;;
  child <- trace thread "child" None None None ;;
  Span_finish thread child ;;
  Span_finish thread parent ;;
  parent2 <- trace thread "parent2" None None None ;;
  Span_finish thread parent2 ;;
  ret (parent, child, parent2).

(** [tracer.trace(name, ...).finish()] *)
Definition trace_and_finish (thread : nat) (name : string)
    (service resource span_type : option string) : M Span.t :=
  span <- trace thread name service resource span_type ;;
  Span_finish thread span ;;
  ret span.

Ltac unfold_monad :=
  unfold span_buffer_get, span_buffer_set, log_debug, AgentWriter_write,
    _new_id, new_AgentWriter;
  unfold bind, gets, modify, ret, raise; cbn beta.

(** * Properties *)

(** ** What each method does to the state *)


Lemma same_setup_refl (w : World) : same_setup w w.
Proof. repeat split. Qed.

Lemma same_setup_trans (w1 w2 w3 : World) :
  same_setup w1 w2 -> same_setup w2 w3 -> same_setup w1 w3.
Proof. unfold same_setup. intuition congruence. Qed.

Lemma same_setup_flushes (w w' : World) (s : Span.t) :
  same_setup w w' -> flushes w' s = flushes w s.
Proof. unfold same_setup, flushes. intros (-> & -> & _). reflexivity. Qed.


Lemma for_each_log_spans (spans : list Span.t) (w : World) :
  for_each spans (fun span => log_debug (LogSpan span)) w
  = (Returned tt, set_log_output (log_output w ++ map LogSpan spans) w).
Proof.
  revert w. induction spans as [|s rest IH]; intros w.
  - destruct w. cbn. rewrite app_nil_r. reflexivity.
  - cbn [for_each]. unfold bind at 1. unfold log_debug at 1, modify.
    rewrite IH. destruct w. cbn. rewrite <- app_assoc. reflexivity.
Qed.


Lemma write_nonempty (s : Span.t) (rest : list Span.t) (w : World) :
  write (s :: rest) w =
  if enabled w then
    match writer w with
    | Some aw =>
        (Returned tt,
         set_exported (exported w ++ [Build_Delivery aw (s :: rest) (_services w)])
                      (dumped (s :: rest) w))
    | None => (Raised (AttributeError "write"), dumped (s :: rest) w)
    end
  else (Returned tt, dumped (s :: rest) w).
Proof.
  unfold write, dumped. unfold bind at 1. unfold gets at 1.
  destruct (debug_logging w) eqn:Hdbg.
  - unfold bind at 1. unfold bind at 1. unfold gets at 1. unfold bind at 1.
    unfold log_debug at 1, modify. rewrite for_each_log_spans.
    unfold_monad. destruct w as [en wr]. cbn in *.
    destruct en; [destruct wr|]; cbn; rewrite <- ?app_assoc; reflexivity.
  - unfold_monad. destruct w as [en wr]. cbn in *.
    destruct en; [destruct wr|]; reflexivity.
Qed.

Lemma record_locked_eq (thread : nat) (span : Span.t) (w : World) :
  record_locked thread span w =
  (Returned (if Span.truthy (Span._parent span) then [] else _spans w ++ [span]),
   set__spans (if Span.truthy (Span._parent span) then _spans w ++ [span] else [])
     (set_span_buffer
        (ThreadLocalSpanBuffer.set thread (Span._parent span) (span_buffer w)) w)).
Proof.
  unfold record_locked. unfold_monad.
  destruct w. cbn. destruct (Span.truthy _); reflexivity.
Qed.

(** [record] never raises, and this is the state it leaves. *)
Lemma record_effect (thread : nat) (span : Span.t) (w : World) :
  exists w',
    record thread span w = (Returned tt, w') /\
    same_setup w w' /\
    ids_drawn w' = ids_drawn w /\
    span_buffer w'
      = ThreadLocalSpanBuffer.set thread (Span._parent span) (span_buffer w) /\
    _spans w' = (if Span.truthy (Span._parent span) then _spans w ++ [span] else []) /\
    exported w' = exported w ++
      (if flushes w span
       then match writer w with
            | Some aw => [Build_Delivery aw (_spans w ++ [span]) (_services w)]
            | None => []
            end
       else []) /\
    (Span.sampled span = false -> log_output w' = log_output w).
Proof.
  unfold record. unfold bind at 1. rewrite record_locked_eq.
  unfold bind at 1. unfold gets at 1. unfold flushes.
  destruct w as [en wr sm acc buf svc dbg src drawn made ex lg]. cbn.
  destruct wr as [aw|]; cbn.
  2:{ eexists. split; [reflexivity|]. cbn.
      rewrite andb_false_r, app_nil_r. cbn. repeat split. }
  destruct (Span.sampled span) eqn:Hs; cbn.
  2:{ eexists. split; [reflexivity|]. cbn.
      rewrite andb_false_r, app_nil_r. cbn. repeat split. }
  destruct (Span.truthy (Span._parent span)) eqn:Hp; cbn.
  { eexists. split; [reflexivity|]. cbn. rewrite app_nil_r. repeat split. }
  destruct (acc ++ [span]) as [|s0 rest] eqn:Hacc.
  { destruct acc; discriminate. }
  rewrite write_nonempty. cbn. unfold dumped. cbn.
  destruct en, dbg; cbn; eexists; (split; [reflexivity|]); cbn;
    rewrite ?app_nil_r; repeat split; try discriminate.
Qed.


Lemma trace_root_eq (thread : nat) (name : string)
    (service resource span_type : option string) (w : World) :
  ThreadLocalSpanBuffer.get thread (span_buffer w) = None ->
  let fresh := fresh_root name service resource span_type w in
  let span := Span.set_sampled (sample (sampler w) fresh) fresh in
  trace thread name service resource span_type w =
  (Returned span,
   set_span_buffer (ThreadLocalSpanBuffer.set thread (Some span) (span_buffer w))
     (set_ids_drawn (S (S (ids_drawn w))) w)).
Proof.
  intros Hget. unfold trace, new_Span, fresh_root. unfold_monad.
  rewrite Hget. destruct w. reflexivity.
Qed.

Lemma trace_child_eq (thread : nat) (name : string)
    (service resource span_type : option string) (w : World) (p : Span.t) :
  ThreadLocalSpanBuffer.get thread (span_buffer w) = Some p ->
  let span :=
    Span.Build name (or_str service (Span.service p)) resource span_type
               (Span.trace_id p) (id_source w (ids_drawn w))
               (Some (Span.span_id p)) (Span.sampled p) (Some p) in
  trace thread name service resource span_type w =
  (Returned span,
   set_span_buffer (ThreadLocalSpanBuffer.set thread (Some span) (span_buffer w))
     (set_ids_drawn (S (ids_drawn w)) w)).
Proof.
  intros Hget. unfold trace, new_Span. unfold_monad.
  rewrite Hget. destruct w. reflexivity.
Qed.

Lemma buffer_get_set (thread : nat) (span : option Span.t)
    (buf : gmap nat (option Span.t)) :
  ThreadLocalSpanBuffer.get thread (ThreadLocalSpanBuffer.set thread span buf) = span.
Proof.
  unfold ThreadLocalSpanBuffer.get, ThreadLocalSpanBuffer.set.
  rewrite lookup_insert_eq. reflexivity.
Qed.

Lemma buffer_get_set_other (thread other : nat) (span : option Span.t)
    (buf : gmap nat (option Span.t)) :
  thread <> other ->
  ThreadLocalSpanBuffer.get other (ThreadLocalSpanBuffer.set thread span buf)
  = ThreadLocalSpanBuffer.get other buf.
Proof.
  intros Hne. unfold ThreadLocalSpanBuffer.get, ThreadLocalSpanBuffer.set.
  rewrite lookup_insert_ne by exact Hne. reflexivity.
Qed.

(** [trace] never raises; it touches the identifier counter and the calling
    thread's slot, nothing else. *)
Lemma trace_effect (thread : nat) (name : string)
    (service resource span_type : option string) (w : World) :
  exists span w',
    trace thread name service resource span_type w = (Returned span, w') /\
    same_setup w w' /\
    _spans w' = _spans w /\
    exported w' = exported w /\
    log_output w' = log_output w /\
    (ids_drawn w < ids_drawn w')%nat /\
    span_buffer w' = ThreadLocalSpanBuffer.set thread (Some span) (span_buffer w).
Proof.
  destruct (ThreadLocalSpanBuffer.get thread (span_buffer w)) as [p|] eqn:Hget.
  - eexists _, _. split; [apply (trace_child_eq _ _ _ _ _ _ _ Hget)|].
    destruct w; cbn. repeat split. lia.
  - eexists _, _. split; [apply (trace_root_eq _ _ _ _ _ _ Hget)|].
    destruct w; cbn. repeat split. lia.
Qed.

(** ** Sequences of creations and finishes *)

Lemma perform_effect (c : Call) (w : World) :
  exists w',
    perform c w = (Returned tt, w') /\
    same_setup w w' /\
    match c with
    | Start _ _ _ _ _ => _spans w' = _spans w /\ exported w' = exported w
    | Finish thread span =>
        _spans w' = (if Span.truthy (Span._parent span) then _spans w ++ [span] else []) /\
        exported w' = exported w ++
          (if flushes w span
           then match writer w with
                | Some aw => [Build_Delivery aw (_spans w ++ [span]) (_services w)]
                | None => []
                end
           else [])
    end.
Proof.
  destruct c as [thread name service resource span_type|thread span]; cbn [perform].
  - destruct (trace_effect thread name service resource span_type w)
      as (span & w' & Heq & Hsetup & Hacc & Hex & _).
    exists w'. unfold bind, ret. rewrite Heq. auto.
  - unfold Span_finish.
    destruct (record_effect thread span w)
      as (w' & Heq & Hsetup & _ & _ & Hacc & Hex & _).
    exists w'. auto.
Qed.

Lemma flushes_writer (w : World) (s : Span.t) :
  flushes w s = true -> exists aw, writer w = Some aw.
Proof.
  unfold flushes. destruct (writer w) as [aw|]; [eauto|].
  cbn. rewrite andb_false_r. discriminate.
Qed.

Lemma flushes_root (w : World) (s : Span.t) :
  flushes w s = true -> Span._parent s = None.
Proof.
  unfold flushes. destruct (Span._parent s); [discriminate|reflexivity].
Qed.

(** The deliveries of a whole sequence: one per finished span that
    [flushes], in order and ending with it; what is delivered and what is
    still buffered is, in order, part of what was buffered and finished. *)
Lemma run_effect (calls : list Call) (w : World) :
  exists w' new,
    run calls w = (Returned tt, w') /\
    same_setup w w' /\
    exported w' = exported w ++ new /\
    map (fun d => last (spans_sent d)) new
      = map Some (List.filter (flushes w) (finished calls)) /\
    concat (map spans_sent new) ++ _spans w' `sublist_of` _spans w ++ finished calls.
Proof.
  revert w. induction calls as [|c rest IH]; intros w.
  - exists w, []. cbn. rewrite !app_nil_r. repeat split. reflexivity.
  - destruct (perform_effect c w) as (w1 & Hc & Hsetup1 & Hstep).
    destruct (IH w1) as (w' & new & Hrun & Hsetup & Hex & Hlast & Hsub).
    assert (Hfl : List.filter (flushes w1) (finished rest)
                  = List.filter (flushes w) (finished rest)).
    { apply List.filter_ext. intros s. apply same_setup_flushes. exact Hsetup1. }
    rewrite Hfl in Hlast. clear Hfl.
    cbn [run]. unfold bind at 1. rewrite Hc.
    destruct c as [thread name service resource span_type|thread span].
    + destruct Hstep as [Hacc Hex1].
      exists w', new. cbn [finished].
      rewrite Hex, Hex1. rewrite Hacc in Hsub.
      split; [exact Hrun|]. split; [eauto using same_setup_trans|].
      split; [reflexivity|]. split; [exact Hlast|exact Hsub].
    + destruct Hstep as [Hacc Hex1]. cbn [finished List.filter].
      destruct (flushes w span) eqn:Hf.
      * destruct (flushes_writer _ _ Hf) as [aw Haw]. rewrite Haw in Hex1.
        rewrite (flushes_root _ _ Hf) in Hacc. cbn in Hacc. rewrite Hacc in Hsub.
        exists w', (Build_Delivery aw (_spans w ++ [span]) (_services w) :: new).
        split; [exact Hrun|]. split; [eauto using same_setup_trans|].
        split; [rewrite Hex, Hex1, <- app_assoc; reflexivity|].
        split; [cbn; rewrite last_snoc, Hlast; reflexivity|].
        cbn. rewrite <- !app_assoc. cbn.
        apply sublist_app; [reflexivity|]. apply sublist_skip. exact Hsub.
      * exists w', new. rewrite app_nil_r in Hex1.
        split; [exact Hrun|]. split; [eauto using same_setup_trans|].
        split; [rewrite Hex, Hex1; reflexivity|].
        split; [exact Hlast|].
        rewrite Hacc in Hsub.
        destruct (Span.truthy (Span._parent span)).
        -- rewrite <- app_assoc in Hsub. exact Hsub.
        -- cbn in Hsub. apply sublist_inserts_l with (k := _spans w ++ [span]) in Hsub.
           rewrite <- app_assoc in Hsub. exact Hsub.
Qed.

(** ** Span creation: children and roots *)

Lemma str_truthy_false (s : string) : str_truthy s = false <-> s = EmptyString.
Proof. destruct s; cbn; split; congruence. Qed.

Lemma current_span_after_set (thread : nat) (span : option Span.t) (w w' : World) :
  span_buffer w' = ThreadLocalSpanBuffer.set thread span (span_buffer w) ->
  current_span thread w' = (Returned span, w').
Proof.
  intros Hbuf. unfold current_span, span_buffer_get, gets.
  rewrite Hbuf, buffer_get_set. reflexivity.
Qed.

(** C5: a span created while the calling thread has a current span [P] is
    its child: it has [P]'s trace identifier, [P]'s span identifier as
    parent identifier and [P]'s sampling flag, whatever the sampling policy
    is; it has [P]'s service when no service is given (and the given one
    when it is a non-empty string); and it is the current span of the thread
    when [trace] returns. *)
Theorem trace_child_links (thread : nat) (name : string)
    (service resource span_type : option string) (w : World) (P : Span.t) :
  ThreadLocalSpanBuffer.get thread (span_buffer w) = Some P ->
  exists S w',
    trace thread name service resource span_type w = (Returned S, w') /\
    Span.trace_id S = Span.trace_id P /\
    Span.parent_id S = Some (Span.span_id P) /\
    Span.sampled S = Span.sampled P /\
    Span._parent S = Some P /\
    match service with
    | None => Span.service S = Span.service P
    | Some given =>
        if str_truthy given then Span.service S = Some given
        else Span.service S = Span.service P
    end /\
    current_span thread w' = (Returned (Some S), w').
Proof.
  intros Hget. eexists _, _.
  split; [apply (trace_child_eq _ _ _ _ _ _ _ Hget)|].
  cbn. repeat split.
  - destruct service as [given|]; [|reflexivity].
    cbn. destruct (str_truthy given); reflexivity.
  - eapply current_span_after_set. destruct w; reflexivity.
Qed.

Lemma trace_child_links_witness :
  ThreadLocalSpanBuffer.get 1 (span_buffer (snd one_open_span)) = Some open_span /\
  exists S w',
    trace 1 "db.query" None None None (snd one_open_span) = (Returned S, w') /\
    Span.trace_id S = Span.trace_id open_span /\
    Span.parent_id S = Some (Span.span_id open_span) /\
    Span.sampled S = Span.sampled open_span /\
    Span._parent S = Some open_span /\
    Span.service S = Span.service open_span /\
    current_span 1 w' = (Returned (Some S), w').
Proof.
  split; [reflexivity|].
  apply (trace_child_links 1 "db.query" None None None (snd one_open_span) open_span).
  reflexivity.
Defined.

(** C6: a span created while the calling thread has no current span is a
    root.  Its trace identifier is the next identifier of the generator,
    which is consumed; it has no parent identifier and no parent; name,
    service, resource and span type are the arguments as given; its sampling
    flag is what the sampling policy answers for it; it is the current span
    of the thread when [trace] returns.  The call returns: there is no
    error. *)
Theorem trace_root_span (thread : nat) (name : string)
    (service resource span_type : option string) (w : World) :
  ThreadLocalSpanBuffer.get thread (span_buffer w) = None ->
  exists S w',
    trace thread name service resource span_type w = (Returned S, w') /\
    Span.trace_id S = id_source w (ids_drawn w) /\
    (ids_drawn w < ids_drawn w')%nat /\
    Span.parent_id S = None /\
    Span._parent S = None /\
    Span.name S = name /\
    Span.service S = service /\
    Span.resource S = resource /\
    Span.span_type S = span_type /\
    Span.sampled S
      = sample (sampler w) (fresh_root name service resource span_type w) /\
    current_span thread w' = (Returned (Some S), w').
Proof.
  intros Hget. eexists _, _.
  split; [apply (trace_root_eq _ _ _ _ _ _ Hget)|].
  cbn. repeat split.
  - destruct w; cbn; lia.
  - eapply current_span_after_set. destruct w; reflexivity.
Qed.

Lemma trace_root_span_witness :
  ThreadLocalSpanBuffer.get 1 (span_buffer new_tracer) = None /\
  exists S w',
    trace 1 "web.request" (Some "web") None (Some "http") new_tracer
      = (Returned S, w') /\
    Span.trace_id S = 0 /\
    (0 < ids_drawn w')%nat /\
    Span.parent_id S = None /\
    Span._parent S = None /\
    Span.name S = "web.request" /\
    Span.service S = Some "web" /\
    Span.resource S = None /\
    Span.span_type S = Some "http" /\
    Span.sampled S = true /\
    current_span 1 w' = (Returned (Some S), w').
Proof.
  split; [reflexivity|].
  apply (trace_root_span 1 "web.request" (Some "web") None (Some "http") new_tracer).
  reflexivity.
Defined.

(** [trace] always returns, whatever the state. *)
Lemma trace_returns (thread : nat) (name : string)
    (service resource span_type : option string) (w : World) :
  exists S w', trace thread name service resource span_type w = (Returned S, w').
Proof.
  destruct (trace_effect thread name service resource span_type w)
    as (S & w' & Heq & _).
  eauto.
Qed.

(** When the generator never repeats itself, the trace identifier of a new
    root is none of the identifiers handed out before. *)
Lemma trace_root_id_unused (thread : nat) (name : string)
    (service resource span_type : option string) (w w' : World) (S : Span.t) :
  (forall i j, id_source w i = id_source w j -> i = j) ->
  ThreadLocalSpanBuffer.get thread (span_buffer w) = None ->
  trace thread name service resource span_type w = (Returned S, w') ->
  forall k, (k < ids_drawn w)%nat -> Span.trace_id S <> id_source w k.
Proof.
  intros Hinj Hget Heq k Hk Hsame.
  rewrite (trace_root_eq _ _ _ _ _ _ Hget) in Heq.
  injection Heq as <- _. cbn in Hsame. apply Hinj in Hsame. lia.
Qed.



(** ** Configuration *)

(** C3, as stated, fails: on a tracer whose writer points at agent:9000,
    [configure(hostname="other")] leaves a writer for port 7777, the
    default, not for the port configured before. *)
Lemma configure_hostname_only_resets_port :
  AgentWriter.port <$> writer agent_9000 = Some 9000 /\
  AgentWriter.port
    <$> writer (world_after (configure None (Some "other") None None) agent_9000)
  = Some 7777 /\
  AgentWriter.port
    <$> writer (world_after (configure None (Some "other") None None) agent_9000)
  <> AgentWriter.port <$> writer agent_9000.
Proof. repeat split. discriminate. Qed.

(** C3, amended: [configure] always returns.  An omitted [enabled] or
    [sampler] leaves the prior value untouched.  When both [hostname] and
    [port] are omitted the writer is untouched; when at least one is given
    the writer is replaced by a newly made one, whose hostname is the given
    one, or "localhost" when it is omitted or empty, and whose port is the
    given one, or 7777 when it is omitted or zero.  Nothing else changes. *)
Theorem configure_effect (en : option bool) (host : option string)
    (prt : option Z) (smp : option Sampler) (w : World) :
  exists w',
    configure en host prt smp w = (Returned tt, w') /\
    enabled w' = default (enabled w) en /\
    sampler w' = default (sampler w) smp /\
    match host, prt with
    | None, None => writer w' = writer w /\ writers_made w' = writers_made w
    | _, _ =>
        writer w' =
          Some (AgentWriter.Build
                  (writers_made w)
                  match host with
                  | Some h => if str_truthy h then h else "localhost"
                  | None => "localhost"
                  end
                  match prt with
                  | Some p => if int_truthy p then p else 7777
                  | None => 7777
                  end) /\
        writers_made w' = S (writers_made w)
    end /\
    _spans w' = _spans w /\
    span_buffer w' = span_buffer w /\
    _services w' = _services w /\
    debug_logging w' = debug_logging w /\
    exported w' = exported w /\
    log_output w' = log_output w /\
    ids_drawn w' = ids_drawn w.
Proof.
  unfold configure. unfold_monad.
  destruct w, en, host, prt, smp; cbn; eexists; (split; [reflexivity|]);
    cbn; repeat split.
Qed.

(** A writer made by [configure] is not the one the tracer had, as long as
    that one was made in this environment. *)
Lemma configure_replaces_writer (en : option bool) (host : option string)
    (prt : option Z) (smp : option Sampler) (w : World) (old : AgentWriter.t) :
  writer w = Some old ->
  (AgentWriter.serial old < writers_made w)%nat ->
  is_not_None host || is_not_None prt = true ->
  writer (world_after (configure en host prt smp) w) <> Some old.
Proof.
  intros Hold Hlt Hgiven. unfold world_after, configure. unfold_monad.
  destruct w, en, host, prt, smp; cbn in *; try discriminate;
    subst; intros Hsame; injection Hsame as Hsame; subst; cbn in Hlt; lia.
Qed.

(** ** Writing *)

Lemma configure_disable (w : World) :
  configure (Some false) None None None w = (Returned tt, set_enabled false w).
Proof. unfold configure. unfold_monad. destruct w. reflexivity. Qed.

Lemma flushes_disabled (w : World) (spans : list Span.t) :
  enabled w = false -> List.filter (flushes w) spans = [].
Proof.
  intros Hoff. induction spans as [|s rest IH]; [reflexivity|].
  cbn. unfold flushes at 1. rewrite Hoff, andb_false_r. exact IH.
Qed.

(** C8: [write] of the empty list changes nothing.  Of a non-empty list:
    when the tracer is enabled (and has a writer) the list goes to the
    writer, with the service registry as it is; when the tracer is disabled
    the call returns and nothing reaches the exporter, the list being kept
    nowhere.  After [configure(enabled=False)], no sequence of span
    creations and finishes makes the exporter receive anything. *)
Theorem write_forwards_or_drops (spans : list Span.t) (w : World) (calls : list Call) :
  write [] w = (Returned tt, w) /\
  match spans, enabled w, writer w with
  | [], _, _ => True
  | _ :: _, true, Some aw =>
      exists w',
        write spans w = (Returned tt, w') /\
        exported w' = exported w ++ [Build_Delivery aw spans (_services w)] /\
        _spans w' = _spans w
  | _ :: _, true, None =>
      exists w', write spans w = (Raised (AttributeError "write"), w')
  | _ :: _, false, _ =>
      exists w',
        write spans w = (Returned tt, w') /\
        exported w' = exported w /\
        _spans w' = _spans w
  end /\
  exists w',
    (configure (Some false) None None None ;; run calls) w = (Returned tt, w') /\
    exported w' = exported w.
Proof.
  split; [reflexivity|]. split.
  - destruct spans as [|s rest]; [exact I|].
    rewrite write_nonempty. unfold dumped.
    destruct w as [en wr sm acc buf svc dbg src drawn made ex lg]. cbn.
    destruct en; [destruct wr|]; destruct dbg; eexists; cbn; eauto.
  - unfold bind. rewrite configure_disable.
    destruct (run_effect calls (set_enabled false w))
      as (w' & new & Hrun & _ & Hex & Hlast & _).
    exists w'. split; [exact Hrun|].
    rewrite flushes_disabled in Hlast by (destruct w; reflexivity).
    apply fmap_nil_inv in Hlast. subst new.
    rewrite Hex, app_nil_r. destruct w; reflexivity.
Qed.

(** ** The flush protocol *)

Lemma flushes_with_parent (w : World) (spans : list Span.t) :
  Forall (fun s => Span.truthy (Span._parent s) = true) spans ->
  List.filter (flushes w) spans = [].
Proof.
  induction 1 as [|s rest Hs _ IH]; [reflexivity|].
  cbn. unfold flushes at 1. rewrite Hs. cbn. exact IH.
Qed.

(** Recording spans that have a parent delivers nothing, however many. *)
Lemma descendants_never_deliver (calls : list Call) (w : World) :
  Forall (fun s => Span.truthy (Span._parent s) = true) (finished calls) ->
  exists w', run calls w = (Returned tt, w') /\ exported w' = exported w.
Proof.
  intros Hall.
  destruct (run_effect calls w) as (w' & new & Hrun & _ & Hex & Hlast & _).
  exists w'. split; [exact Hrun|].
  rewrite (flushes_with_parent _ _ Hall) in Hlast. apply fmap_nil_inv in Hlast. subst new.
  rewrite Hex, app_nil_r. reflexivity.
Qed.



(** ** Unsampled traces *)

(** Induction along the [_parent] chain. *)
Lemma span_parent_ind (P : Span.t -> Prop) :
  (forall s, (forall p, Span._parent s = Some p -> P p) -> P s) ->
  forall s, P s.
Proof.
  intros Hstep. fix IH 1. intros s. apply Hstep.
  destruct s as [n sv r ty tid sid pid smp [p|]]; cbn; intros q Hq.
  - injection Hq as Hq. rewrite <- Hq. apply IH.
  - discriminate Hq.
Qed.

(** In a chain linked by [trace], every span carries the sampling flag of
    the root. *)
Lemma inherited_sampling_is_root's (s : Span.t) :
  sampling_inherited s = true -> Span.sampled s = Span.sampled (root_of s).
Proof.
  induction s as [s IH] using span_parent_ind.
  destruct s as [n sv r ty tid sid pid smp [p|]]; cbn; [|reflexivity].
  intros Hlinked. apply andb_prop in Hlinked as [Hflag Hrest].
  apply Bool.eqb_prop in Hflag. rewrite Hflag. apply (IH p); [reflexivity|exact Hrest].
Qed.

(** [trace] extends linked chains by linked spans, of the same trace. *)
Lemma trace_keeps_sampling_inherited (thread : nat) (name : string)
    (service resource span_type : option string) (w w' : World) (S : Span.t) :
  (forall p, ThreadLocalSpanBuffer.get thread (span_buffer w) = Some p ->
             sampling_inherited p = true) ->
  trace thread name service resource span_type w = (Returned S, w') ->
  sampling_inherited S = true /\
  match ThreadLocalSpanBuffer.get thread (span_buffer w) with
  | Some p => root_of S = root_of p
  | None => root_of S = S
  end.
Proof.
  intros Hcur Heq.
  destruct (ThreadLocalSpanBuffer.get thread (span_buffer w)) as [p|] eqn:Hget.
  - rewrite (trace_child_eq _ _ _ _ _ _ _ Hget) in Heq. injection Heq as <- _.
    cbn. rewrite Bool.eqb_reflx, (Hcur p eq_refl). split; reflexivity.
  - rewrite (trace_root_eq _ _ _ _ _ _ Hget) in Heq. injection Heq as <- _.
    split; reflexivity.
Qed.

(** A run in which every span that is finished belongs to a trace whose
    root is not sampled (its flag being the root's, as [trace] makes it)
    hands nothing to [write] or to the exporter: each [record] returns, the
    exporter has received nothing more and nothing was dumped to the debug
    log, whether the tracer is enabled or not and however many spans
    finish. *)
Theorem unsampled_trace_never_exported (calls : list Call) (w : World) :
  Forall (fun s => sampling_inherited s = true /\ Span.sampled (root_of s) = false)
         (finished calls) ->
  exists w',
    run calls w = (Returned tt, w') /\
    exported w' = exported w /\
    log_output w' = log_output w.
Proof.
  revert w. induction calls as [|c rest IH]; intros w Hall.
  - exists w. repeat split.
  - destruct c as [thread name service resource span_type|thread span];
      cbn [run perform finished] in *; unfold bind at 1.
    + destruct (trace_effect thread name service resource span_type w)
        as (S & w1 & Heq & _ & _ & Hex & Hlog & _).
      unfold bind at 1. rewrite Heq. unfold ret at 1.
      destruct (IH w1 Hall) as (w' & Hrun & Hex' & Hlog').
      exists w'. split; [exact Hrun|]. split; congruence.
    + apply Forall_cons in Hall as [[Hlinked Hroot] Hall].
      assert (Hs : Span.sampled span = false).
      { rewrite (inherited_sampling_is_root's _ Hlinked). exact Hroot. }
      unfold Span_finish.
      destruct (record_effect thread span w)
        as (w1 & Heq & _ & _ & _ & _ & Hex & Hlog).
      rewrite Heq.
      unfold flushes in Hex. rewrite Hs, andb_false_r, app_nil_r in Hex.
      destruct (IH w1 Hall) as (w' & Hrun & Hex' & Hlog').
      exists w'. split; [exact Hrun|]. split; [congruence|].
      rewrite Hlog', (Hlog Hs). reflexivity.
Qed.

Lemma unsampled_trace_never_exported_witness :
  Forall (fun s => sampling_inherited s = true /\ Span.sampled (root_of s) = false)
         [rejected_child; rejected_root] /\
  exists w',
    run [Finish 1 rejected_child; Finish 1 rejected_root]
        (set_debug_logging true new_tracer) = (Returned tt, w') /\
    exported w' = [] /\
    log_output w' = [].
Proof.
  assert (H : Forall (fun s => sampling_inherited s = true /\
                               Span.sampled (root_of s) = false)
                     [rejected_child; rejected_root]).
  { repeat constructor. }
  split; [exact H|].
  apply (unsampled_trace_never_exported
           [Finish 1 rejected_child; Finish 1 rejected_root]
           (set_debug_logging true new_tracer) H).
Defined.

(** The spans of [rejected_trace] are the ones named above, and they are
    unsampled because the policy said so. *)
Example rejected_trace_spans :
  outcome_of rejected_trace new_tracer = Returned (rejected_root, rejected_child).
Proof. vm_compute. reflexivity. Qed.




(** C10: [record] of a span with no parent leaves the buffer empty,
    whatever the sampling flag and whether the tracer is enabled or not;
    when the span is unsampled or the tracer disabled the exporter receives
    nothing; and whatever creations and finishes follow ([calls]), every
    list the exporter then receives, and the buffer at the end, hold only
    spans finished by these later calls. *)
Theorem root_record_empties_buffer (thread : nat) (span : Span.t) (w : World)
    (calls : list Call) :
  Span._parent span = None ->
  exists w1 w2 later,
    record thread span w = (Returned tt, w1) /\
    _spans w1 = [] /\
    (if Span.sampled span && enabled w then True else exported w1 = exported w) /\
    run calls w1 = (Returned tt, w2) /\
    exported w2 = exported w1 ++ later /\
    Forall (fun d => Forall (fun s => In s (finished calls)) (spans_sent d)) later /\
    Forall (fun s => In s (finished calls)) (_spans w2).
Proof.
  intros Hroot.
  destruct (record_effect thread span w)
    as (w1 & Hrec & _ & _ & _ & Hacc & Hex & _).
  rewrite Hroot in Hacc. cbn in Hacc.
  destruct (run_effect calls w1) as (w2 & later & Hrun & _ & Hex2 & _ & Hsub).
  rewrite Hacc in Hsub. cbn in Hsub.
  exists w1, w2, later.
  split; [exact Hrec|]. split; [exact Hacc|]. split.
  { unfold flushes in Hex.
    destruct (Span.sampled span), (enabled w); cbn; try exact I;
      rewrite ?andb_false_r in Hex; cbn in Hex; rewrite app_nil_r in Hex; exact Hex. }
  split; [exact Hrun|]. split; [exact Hex2|].
  assert (Hall : Forall (fun s => In s (finished calls))
                        (concat (map spans_sent later) ++ _spans w2)).
  { apply Forall_forall. intros s Hin. apply list_elem_of_In.
    eapply elem_of_sublist; [|exact Hsub]. exact Hin. }
  apply Forall_app in Hall as [Hsent Hleft]. split; [|exact Hleft].
  clear - Hsent. induction later as [|d rest IH]; [constructor|].
  cbn in Hsent. apply Forall_app in Hsent as [Hd Hrest].
  constructor; [exact Hd|exact (IH Hrest)].
Qed.

Lemma root_record_empties_buffer_witness :
  exists w1 w2 later,
    record 1 rejected_root (set__spans [rejected_child] new_tracer)
      = (Returned tt, w1) /\
    _spans w1 = [] /\
    exported w1 = [] /\
    run [Start 1 "next" None None None] w1 = (Returned tt, w2) /\
    exported w2 = exported w1 ++ later /\
    Forall (fun d => Forall (fun s => In s []) (spans_sent d)) later /\
    Forall (fun s => In s []) (_spans w2).
Proof.
  apply (root_record_empties_buffer 1 rejected_root
           (set__spans [rejected_child] new_tracer)
           [Start 1 "next" None None None]).
  reflexivity.
Defined.

(** ** Two traces in progress at once *)

Lemma trace_root_step (thread : nat) (name : string)
    (service resource span_type : option string) (w : World) :
  ThreadLocalSpanBuffer.get thread (span_buffer w) = None ->
  exists S w',
    trace thread name service resource span_type w = (Returned S, w') /\
    same_setup w w' /\
    _spans w' = _spans w /\
    exported w' = exported w /\
    span_buffer w' = ThreadLocalSpanBuffer.set thread (Some S) (span_buffer w) /\
    Span._parent S = None /\
    Span.sampled S
      = sample (sampler w) (fresh_root name service resource span_type w).
Proof.
  intros Hget. eexists _, _.
  split; [apply (trace_root_eq _ _ _ _ _ _ Hget)|].
  destruct w; cbn. repeat split.
Qed.

Lemma trace_child_step (thread : nat) (name : string)
    (service resource span_type : option string) (w : World) (p : Span.t) :
  ThreadLocalSpanBuffer.get thread (span_buffer w) = Some p ->
  exists S w',
    trace thread name service resource span_type w = (Returned S, w') /\
    same_setup w w' /\
    _spans w' = _spans w /\
    exported w' = exported w /\
    span_buffer w' = ThreadLocalSpanBuffer.set thread (Some S) (span_buffer w) /\
    Span._parent S = Some p /\
    Span.sampled S = Span.sampled p.
Proof.
  intros Hget. eexists _, _.
  split; [apply (trace_child_eq _ _ _ _ _ _ _ Hget)|].
  destruct w; cbn. repeat split.
Qed.

Lemma flushes_true (w : World) (s : Span.t) (aw : AgentWriter.t) :
  Span._parent s = None -> writer w = Some aw -> Span.sampled s = true ->
  enabled w = true -> flushes w s = true.
Proof. unfold flushes. intros -> -> -> ->. reflexivity. Qed.

Lemma flushes_child (w : World) (s p : Span.t) :
  Span._parent s = Some p -> flushes w s = false.
Proof. unfold flushes. intros ->. reflexivity. Qed.

(** C1, as stated, fails: on a new tracer, with threads 1 and 2, the two
    lists the exporter receives are not [A2, A1] and [B2, B1]; the first
    one holds A2 next to B1, spans of different traces. *)
Lemma two_traces_not_apart :
  outcome_of (two_traces 1 2) new_tracer
    = Returned (span_A1, span_A2, span_B1, span_B2) /\
  ~ delivered_per_trace span_A1 span_A2 span_B1 span_B2
      (delivered (world_after (two_traces 1 2) new_tracer)) /\
  exists d,
    In d (delivered (world_after (two_traces 1 2) new_tracer)) /\
    In span_A2 d /\ In span_B1 d /\
    Span.trace_id span_A2 <> Span.trace_id span_B1.
Proof.
  assert (Hd : delivered (world_after (two_traces 1 2) new_tracer)
               = [[span_A2; span_B2; span_B1]; [span_A1]])
    by (vm_compute; reflexivity).
  split; [vm_compute; reflexivity|]. rewrite Hd. split.
  - unfold delivered_per_trace. intros [H|H]; discriminate H.
  - exists [span_A2; span_B2; span_B1]. cbn.
    split; [left; reflexivity|].
    split; [left; reflexivity|]. split; [right; right; left; reflexivity|].
    discriminate.
Qed.

(** C1, amended: the tracer is enabled, has a writer and an empty buffer,
    its policy samples every root, and two different threads have no
    current span.  Thread A opens root A1, thread B root B1, then A opens A2
    and B opens B2, children of A1 and of B1; the spans finish in the order
    A2, B2, B1, A1.  The exporter receives exactly two lists, one at the
    record call of each root, each being what the one shared buffer then
    holds: [A2, B2, B1] when B1 finishes, then [A1] when A1 finishes.  The
    spans are not kept apart by trace. *)
Theorem two_traces_share_buffer (tA tB : nat) (w : World) (aw : AgentWriter.t) :
  tA <> tB ->
  ThreadLocalSpanBuffer.get tA (span_buffer w) = None ->
  ThreadLocalSpanBuffer.get tB (span_buffer w) = None ->
  _spans w = [] ->
  enabled w = true ->
  writer w = Some aw ->
  (forall s, sample (sampler w) s = true) ->
  exists a1 a2 b1 b2 w',
    two_traces tA tB w = (Returned (a1, a2, b1, b2), w') /\
    Span._parent a1 = None /\ Span._parent a2 = Some a1 /\
    Span._parent b1 = None /\ Span._parent b2 = Some b1 /\
    exported w' = exported w ++
      [Build_Delivery aw [a2; b2; b1] (_services w);
       Build_Delivery aw [a1] (_services w)] /\
    _spans w' = [].
Proof.
  intros Hne HA HB Hempty Hen Hwr Hall.
  destruct (trace_root_step tA "A1" None None None w HA)
    as (a1 & w1 & E1 & S1 & Acc1 & Ex1 & Buf1 & Pa1 & Sa1).
  rewrite Hall in Sa1.
  assert (HB1 : ThreadLocalSpanBuffer.get tB (span_buffer w1) = None).
  { rewrite Buf1, buffer_get_set_other by exact Hne. exact HB. }
  destruct (trace_root_step tB "B1" None None None w1 HB1)
    as (b1 & w2 & E2 & S2 & Acc2 & Ex2 & Buf2 & Pb1 & Sb1).
  assert (S02 : same_setup w w2) by eauto using same_setup_trans.
  destruct S02 as (En2 & Wr2 & Sm2 & Sv2 & _).
  destruct S1 as (_ & _ & Sm1 & _).
  rewrite Sm1, Hall in Sb1.
  assert (HA2 : ThreadLocalSpanBuffer.get tA (span_buffer w2) = Some a1).
  { rewrite Buf2, buffer_get_set_other by congruence.
    rewrite Buf1. apply buffer_get_set. }
  destruct (trace_child_step tA "A2" None None None w2 a1 HA2)
    as (a2 & w3 & E3 & S3 & Acc3 & Ex3 & Buf3 & Pa2 & _).
  assert (HB3 : ThreadLocalSpanBuffer.get tB (span_buffer w3) = Some b1).
  { rewrite Buf3, buffer_get_set_other by exact Hne.
    rewrite Buf2. apply buffer_get_set. }
  destruct (trace_child_step tB "B2" None None None w3 b1 HB3)
    as (b2 & w4 & E4 & S4 & Acc4 & Ex4 & _ & Pb2 & _).
  assert (S24 : same_setup w2 w4) by eauto using same_setup_trans.
  destruct S24 as (En4 & Wr4 & _ & Sv4 & _).
  destruct (record_effect tA a2 w4) as (w5 & E5 & S5 & _ & _ & Acc5 & Ex5 & _).
  rewrite (flushes_child _ _ _ Pa2), app_nil_r in Ex5.
  rewrite Pa2 in Acc5. cbn in Acc5.
  destruct S5 as (En5 & Wr5 & _ & Sv5 & _).
  destruct (record_effect tB b2 w5) as (w6 & E6 & S6 & _ & _ & Acc6 & Ex6 & _).
  rewrite (flushes_child _ _ _ Pb2), app_nil_r in Ex6.
  rewrite Pb2 in Acc6. cbn in Acc6.
  destruct S6 as (En6 & Wr6 & _ & Sv6 & _).
  assert (Hwr6 : writer w6 = Some aw) by congruence.
  assert (Hen6 : enabled w6 = true) by congruence.
  destruct (record_effect tB b1 w6) as (w7 & E7 & S7 & _ & _ & Acc7 & Ex7 & _).
  rewrite (flushes_true _ _ _ Pb1 Hwr6 Sb1 Hen6), Hwr6 in Ex7.
  rewrite Pb1 in Acc7. cbn in Acc7.
  destruct S7 as (En7 & Wr7 & _ & Sv7 & _).
  assert (Hwr7 : writer w7 = Some aw) by congruence.
  assert (Hen7 : enabled w7 = true) by congruence.
  destruct (record_effect tA a1 w7) as (w8 & E8 & _ & _ & _ & Acc8 & Ex8 & _).
  rewrite (flushes_true _ _ _ Pa1 Hwr7 Sa1 Hen7), Hwr7 in Ex8.
  rewrite Pa1 in Acc8. cbn in Acc8.
  exists a1, a2, b1, b2, w8.
  split.
  { unfold two_traces, Span_finish, bind, ret.
    rewrite E1, E2, E3, E4, E5, E6, E7, E8. reflexivity. }
  repeat (split; [assumption|]).
  split; [|exact Acc8].
  rewrite Ex8, Ex7, Ex6, Ex5, Ex4, Ex3, Ex2, Ex1, <- app_assoc.
  rewrite Acc7, Acc6, Acc5, Acc4, Acc3, Acc2, Acc1, Hempty.
  replace (_services w7) with (_services w) by congruence.
  replace (_services w6) with (_services w) by congruence.
  reflexivity.
Qed.

Lemma two_traces_share_buffer_witness :
  exists a1 a2 b1 b2 w',
    two_traces 1 2 new_tracer = (Returned (a1, a2, b1, b2), w') /\
    Span._parent a1 = None /\ Span._parent a2 = Some a1 /\
    Span._parent b1 = None /\ Span._parent b2 = Some b1 /\
    exported w' =
      [Build_Delivery (AgentWriter.Build 0 "localhost" 7777) [a2; b2; b1] ∅;
       Build_Delivery (AgentWriter.Build 0 "localhost" 7777) [a1] ∅] /\
    _spans w' = [].
Proof.
  apply (two_traces_share_buffer 1 2 new_tracer (AgentWriter.Build 0 "localhost" 7777));
    try reflexivity.
  lia.
Defined.

(** ** The decorator *)

(** A call of the wrapper: a span is opened, named after the function unless
    a name was given; the function is called from the same thread with the
    same arguments; the span is then recorded, whether the function returned
    or raised; an exception of the function is the exception of the wrapper;
    a value the function returns is dropped, the wrapper returns [None]. *)
Lemma wrap_call (name service resource span_type : option string)
    (func : PyFunc) (thread : nat) (a : CallArgs) (w : World) :
  exists span w1 w3,
    trace thread
          match name with
          | None => __name__ func
          | Some n => n
          end service resource span_type w = (Returned span, w1) /\
    record thread span (snd (call func thread a w1)) = (Returned tt, w3) /\
    call (wrap name service resource span_type func) thread a w =
    (match fst (call func thread a w1) with
     | Returned _ => Returned PyNone
     | Raised e => Raised e
     end, w3).
Proof.
  destruct (trace_effect thread
              match name with
              | None => __name__ func
              | Some n => n
              end service resource span_type w) as (span & w1 & Heq & _).
  destruct (record_effect thread span (snd (call func thread a w1)))
    as (w3 & Hrec & _).
  exists span, w1, w3. split; [exact Heq|]. split; [exact Hrec|].
  unfold wrap. cbn [call]. unfold bind at 1. rewrite Heq.
  unfold bind, with_span, Span_finish.
  destruct (call func thread a w1) as [out w2]. cbn [fst snd] in *.
  rewrite Hrec. destruct out; reflexivity.
Qed.

(** C2 fails on the code: the function returns 1, its wrapper returns
    [None]. *)
Theorem wrap_discards_return_value :
  outcome_of (call constant_one 1 no_args) new_tracer = Returned (PyInt 1) /\
  outcome_of (call (wrap None None None None constant_one) 1 no_args) new_tracer
  = Returned PyNone.
Proof. split; vm_compute; reflexivity. Qed.

(** The other half of C2 holds: the exception of the wrapped function
    reaches the caller of the wrapper, and the span opened for the call was
    recorded, here delivered to the exporter. *)
Example wrap_failing_function :
  outcome_of (call (wrap None None None None failing) 1 no_args) new_tracer
  = Raised (Exception "boom") /\
  map (map Span.name)
      (delivered (world_after (call (wrap None None None None failing) 1 no_args)
                              new_tracer))
  = [["failing"]].
Proof. split; vm_compute; reflexivity. Qed.

(** * Further properties of the tracer *)

(** ** A new tracer *)

Lemma buffer_get_empty (thread : nat) : ThreadLocalSpanBuffer.get thread ∅ = None.
Proof. unfold ThreadLocalSpanBuffer.get. rewrite lookup_empty. reflexivity. Qed.

(** X1: on a tracer that was just constructed, in any environment,
    [tracer.trace(name, ...).finish()] from any thread returns; the span is
    a sampled root; the exporter receives exactly one list, holding that
    span alone, sent to the writer for localhost:7777 with an empty service
    registry; nothing stays buffered and the thread has no current span. *)
Theorem new_tracer_single_span (src : nat -> Z) (drawn made : nat)
    (thread : nat) (name : string) (service resource span_type : option string) :
  exists span w',
    trace_and_finish thread name service resource span_type (Tracer src drawn made)
      = (Returned span, w') /\
    Span._parent span = None /\
    Span.sampled span = true /\
    Span.trace_id span = src drawn /\
    exported w'
      = [Build_Delivery (AgentWriter.Build made "localhost" 7777) [span] ∅] /\
    _spans w' = [] /\
    current_span thread w' = (Returned None, w').
Proof.
  set (w := Tracer src drawn made).
  assert (Hget : ThreadLocalSpanBuffer.get thread (span_buffer w) = None)
    by apply buffer_get_empty.
  pose proof (trace_root_eq thread name service resource span_type w Hget) as E1.
  cbn zeta in E1.
  set (span := Span.set_sampled _ _) in E1. set (w1 := set_span_buffer _ _) in E1.
  destruct (record_effect thread span w1)
    as (w2 & E2 & _ & _ & Buf2 & Acc2 & Ex2 & _).
  exists span, w2. split.
  { unfold trace_and_finish, Span_finish, bind, ret. rewrite E1, E2. reflexivity. }
  split; [reflexivity|]. split; [reflexivity|]. split; [reflexivity|].
  split; [exact Ex2|]. split; [exact Acc2|].
  eapply current_span_after_set. exact Buf2.
Qed.

(** ** The current span of a thread *)

(** X2: what one thread does never changes the current span of another:
    neither [trace], nor [record], nor [clear_current_span]. *)
Theorem other_threads_untouched (thread other : nat) (w : World) :
  thread <> other ->
  (forall name service resource span_type,
     ThreadLocalSpanBuffer.get other
       (span_buffer (world_after (trace thread name service resource span_type) w))
     = ThreadLocalSpanBuffer.get other (span_buffer w)) /\
  (forall span,
     ThreadLocalSpanBuffer.get other
       (span_buffer (world_after (record thread span) w))
     = ThreadLocalSpanBuffer.get other (span_buffer w)) /\
  ThreadLocalSpanBuffer.get other
    (span_buffer (world_after (clear_current_span thread) w))
  = ThreadLocalSpanBuffer.get other (span_buffer w).
Proof.
  intros Hne. split; [|split].
  - intros name service resource span_type.
    destruct (trace_effect thread name service resource span_type w)
      as (S & w' & Heq & _ & _ & _ & _ & _ & Hbuf).
    unfold world_after. rewrite Heq. cbn [snd].
    rewrite Hbuf. apply buffer_get_set_other. exact Hne.
  - intros span.
    destruct (record_effect thread span w) as (w' & Heq & _ & _ & Hbuf & _).
    unfold world_after. rewrite Heq. cbn [snd].
    rewrite Hbuf. apply buffer_get_set_other. exact Hne.
  - unfold world_after, clear_current_span, span_buffer_set, modify.
    destruct w; cbn. apply buffer_get_set_other. exact Hne.
Qed.

Lemma other_threads_untouched_witness :
  (forall name service resource span_type,
     ThreadLocalSpanBuffer.get 1
       (span_buffer
          (world_after (trace 2 name service resource span_type) (snd one_open_span)))
     = Some open_span) /\
  (forall span,
     ThreadLocalSpanBuffer.get 1
       (span_buffer (world_after (record 2 span) (snd one_open_span)))
     = Some open_span) /\
  ThreadLocalSpanBuffer.get 1
    (span_buffer (world_after (clear_current_span 2) (snd one_open_span)))
  = Some open_span.
Proof.
  apply (other_threads_untouched 2 1 (snd one_open_span)). lia.
Defined.

(** X3: after [clear_current_span], the next [trace] of the thread makes a
    root, whatever span was open: no parent, and a sampling flag asked from
    the policy.  The span that was open is neither recorded nor
    exported. *)
Theorem clear_then_trace_is_root (thread : nat) (name : string)
    (service resource span_type : option string) (w : World) :
  exists S w',
    (clear_current_span thread ;; trace thread name service resource span_type) w
      = (Returned S, w') /\
    Span._parent S = None /\
    Span.parent_id S = None /\
    Span.trace_id S = id_source w (ids_drawn w) /\
    Span.sampled S
      = sample (sampler w) (fresh_root name service resource span_type w) /\
    _spans w' = _spans w /\
    exported w' = exported w /\
    current_span thread w' = (Returned (Some S), w').
Proof.
  unfold bind at 1. unfold clear_current_span, span_buffer_set, modify.
  set (w0 := set_span_buffer _ w).
  assert (Hget : ThreadLocalSpanBuffer.get thread (span_buffer w0) = None).
  { subst w0. destruct w; cbn. apply buffer_get_set. }
  rewrite (trace_root_eq thread name service resource span_type w0 Hget).
  eexists _, _. split; [reflexivity|].
  subst w0. destruct w; cbn. repeat split.
  unfold current_span, span_buffer_get, gets. cbn.
  rewrite buffer_get_set. reflexivity.
Qed.

(** X4: opening a span and finishing it, from the same thread, puts the
    current span of the thread back to what it was: the spans of a thread
    nest.  The finished span is buffered when it had a parent; when it had
    none the buffer is left empty. *)
Theorem trace_then_finish_restores_current (thread : nat) (name : string)
    (service resource span_type : option string) (w : World) :
  exists S w1 w2,
    trace thread name service resource span_type w = (Returned S, w1) /\
    Span_finish thread S w1 = (Returned tt, w2) /\
    Span._parent S = ThreadLocalSpanBuffer.get thread (span_buffer w) /\
    ThreadLocalSpanBuffer.get thread (span_buffer w2)
      = ThreadLocalSpanBuffer.get thread (span_buffer w) /\
    _spans w2 =
      match ThreadLocalSpanBuffer.get thread (span_buffer w) with
      | Some _ => _spans w ++ [S]
      | None => []
      end.
Proof.
  destruct (ThreadLocalSpanBuffer.get thread (span_buffer w)) as [p|] eqn:Hget.
  - destruct (trace_child_step thread name service resource span_type w p Hget)
      as (S & w1 & E1 & _ & Acc1 & _ & _ & Pa & _).
    destruct (record_effect thread S w1) as (w2 & E2 & _ & _ & Buf2 & Acc2 & _).
    exists S, w1, w2. rewrite Pa in *. cbn in Acc2.
    repeat split; try assumption.
    + rewrite Buf2. apply buffer_get_set.
    + rewrite Acc2, Acc1. reflexivity.
  - destruct (trace_root_step thread name service resource span_type w Hget)
      as (S & w1 & E1 & _ & Acc1 & _ & _ & Pa & _).
    destruct (record_effect thread S w1) as (w2 & E2 & _ & _ & Buf2 & Acc2 & _).
    exists S, w1, w2. rewrite Pa in *. cbn in Acc2.
    repeat split; try assumption.
    rewrite Buf2. apply buffer_get_set.
Qed.

(** X5: the example of the docstring of [trace], from a thread that has no
    current span.  The parent has no parent span, the child is a child of the
    parent and of its trace, and the span opened after both have finished has
    no parent again: it starts a trace of its own, with the next identifier
    of the generator.  In the end the thread has no current span and nothing
    is buffered. *)
Theorem docstring_example_spans (thread : nat) (w : World) :
  ThreadLocalSpanBuffer.get thread (span_buffer w) = None ->
  exists parent child parent2 w',
    docstring_example thread w = (Returned (parent, child, parent2), w') /\
    Span._parent parent = None /\
    Span._parent child = Some parent /\
    Span.trace_id child = Span.trace_id parent /\
    Span.trace_id parent = id_source w (ids_drawn w) /\
    Span._parent parent2 = None /\
    Span.trace_id parent2 = id_source w (3 + ids_drawn w) /\
    ThreadLocalSpanBuffer.get thread (span_buffer w') = None /\
    _spans w' = [].
Proof.
  intros Hget.
  pose proof (trace_root_eq thread "parent" None None None w Hget) as E1.
  cbn zeta in E1.
  set (parent := Span.set_sampled _ _) in E1. set (w1 := set_span_buffer _ _) in E1.
  assert (Hget1 : ThreadLocalSpanBuffer.get thread (span_buffer w1) = Some parent).
  { subst w1. destruct w; cbn. apply buffer_get_set. }
  pose proof (trace_child_eq thread "child" None None None w1 parent Hget1) as E2.
  cbn zeta in E2.
  set (child := Span.Build _ _ _ _ _ _ _ _ _) in E2.
  set (w2 := set_span_buffer _ _) in E2.
  destruct (record_effect thread child w2)
    as (w3 & E3 & S3 & Id3 & Buf3 & _ & _ & _).
  destruct (record_effect thread parent w3)
    as (w4 & E4 & S4 & Id4 & Buf4 & Acc4 & _ & _).
  assert (Hget4 : ThreadLocalSpanBuffer.get thread (span_buffer w4) = None).
  { rewrite Buf4. apply buffer_get_set. }
  pose proof (trace_root_eq thread "parent2" None None None w4 Hget4) as E5.
  cbn zeta in E5.
  set (parent2 := Span.set_sampled _ _) in E5. set (w5 := set_span_buffer _ _) in E5.
  destruct (record_effect thread parent2 w5)
    as (w6 & E6 & _ & _ & Buf6 & Acc6 & _ & _).
  exists parent, child, parent2, w6. split.
  { unfold docstring_example, Span_finish, bind, ret.
    rewrite E1, E2, E3, E4, E5, E6. reflexivity. }
  do 4 (split; [reflexivity|]). split; [reflexivity|].
  split.
  { subst parent2. cbn.
    destruct S4 as (_ & _ & _ & _ & _ & Src4 & _).
    destruct S3 as (_ & _ & _ & _ & _ & Src3 & _).
    rewrite Src4, Src3, Id4, Id3. subst w2 w1. destruct w; reflexivity. }
  split; [rewrite Buf6; apply buffer_get_set|exact Acc6].
Qed.

Lemma docstring_example_spans_witness :
  exists parent child parent2 w',
    docstring_example 1 new_tracer = (Returned (parent, child, parent2), w') /\
    Span._parent parent = None /\
    Span._parent child = Some parent /\
    Span.trace_id child = Span.trace_id parent /\
    Span.trace_id parent = 0 /\
    Span._parent parent2 = None /\
    Span.trace_id parent2 = 3 /\
    ThreadLocalSpanBuffer.get 1 (span_buffer w') = None /\
    _spans w' = [].
Proof.
  apply (docstring_example_spans 1 new_tracer). reflexivity.
Defined.

(** ** The service registry *)

Lemma set_service_info_eq (service app app_type : string) (w : World) :
  set_service_info service app app_type w =
  (Returned tt,
   set_log_output
     (log_output w ++
      if debug_logging w then [LogServiceInfo service app app_type] else [])
     (set__services (<[service := Build_ServiceInfo app app_type]> (_services w)) w)).
Proof.
  unfold set_service_info. unfold_monad.
  destruct w as [en wr sm acc buf svc dbg src drawn made ex lg]. cbn.
  destruct dbg; cbn; rewrite ?app_nil_r; reflexivity.
Qed.

(** X6: [set_service_info] always returns.  Afterwards the registry maps
    the service to the given application name and type, whether or not it
    had an entry, and every other service to what it had.  Spans, current
    spans, configuration and the exporter are untouched; one line goes to
    the debug log when debug logging is on, none otherwise. *)
Theorem set_service_info_upserts (service app app_type : string) (w : World) :
  exists w',
    set_service_info service app app_type w = (Returned tt, w') /\
    _services w' !! service = Some (Build_ServiceInfo app app_type) /\
    (forall other, other <> service -> _services w' !! other = _services w !! other) /\
    enabled w' = enabled w /\
    writer w' = writer w /\
    sampler w' = sampler w /\
    _spans w' = _spans w /\
    span_buffer w' = span_buffer w /\
    exported w' = exported w /\
    log_output w' = log_output w ++
      (if debug_logging w then [LogServiceInfo service app app_type] else []).
Proof.
  rewrite set_service_info_eq. eexists. split; [reflexivity|].
  destruct w; cbn. repeat split.
  - apply lookup_insert_eq.
  - intros other Hne. apply lookup_insert_ne. congruence.
Qed.

(** X7: the last [set_service_info] for a service wins, and that is what
    the exporter gets.  After two calls for the same service the registry
    is the one the second call alone would have left, with a single entry
    for the service; a root that is then recorded, sampled and with the
    tracer enabled, is delivered together with this registry. *)
Theorem last_service_info_reaches_exporter (service app1 type1 app2 type2 : string)
    (thread : nat) (span : Span.t) (w : World) :
  flushes w span = true ->
  exists aw w',
    writer w = Some aw /\
    (set_service_info service app1 type1 ;;
     set_service_info service app2 type2 ;;
     record thread span) w = (Returned tt, w') /\
    _services w' = <[service := Build_ServiceInfo app2 type2]> (_services w) /\
    _services w' = _services (world_after (set_service_info service app2 type2) w) /\
    exported w' = exported w ++
      [Build_Delivery aw (_spans w ++ [span])
         (<[service := Build_ServiceInfo app2 type2]> (_services w))].
Proof.
  intros Hf. destruct (flushes_writer _ _ Hf) as [aw Haw].
  unfold bind at 1. rewrite set_service_info_eq.
  unfold bind at 1. rewrite set_service_info_eq.
  set (w2 := set_log_output _ _).
  assert (Hsvc : _services w2 = <[service := Build_ServiceInfo app2 type2]> (_services w)).
  { subst w2. destruct w; cbn. apply insert_insert_eq. }
  assert (Hf2 : flushes w2 span = true).
  { subst w2. destruct w; exact Hf. }
  destruct (record_effect thread span w2)
    as (w' & Heq & S' & _ & _ & _ & Hex & _).
  rewrite Hf2 in Hex.
  assert (Haw2 : writer w2 = Some aw) by (subst w2; destruct w; exact Haw).
  rewrite Haw2, Hsvc in Hex.
  exists aw, w'. split; [exact Haw|]. split; [exact Heq|].
  destruct S' as (_ & _ & _ & Hs' & _).
  split; [congruence|]. split.
  { rewrite Hs', Hsvc. unfold world_after. rewrite set_service_info_eq.
    destruct w; reflexivity. }
  rewrite Hex. subst w2. destruct w; reflexivity.
Qed.

Lemma last_service_info_reaches_exporter_witness :
  exists aw w',
    writer new_tracer = Some aw /\
    (set_service_info "web" "flask" "db" ;;
     set_service_info "web" "django" "web" ;;
     record 1 span_A1) new_tracer = (Returned tt, w') /\
    _services w' = <["web" := Build_ServiceInfo "django" "web"]> ∅ /\
    _services w'
      = _services (world_after (set_service_info "web" "django" "web") new_tracer) /\
    exported w' =
      [Build_Delivery aw [span_A1] (<["web" := Build_ServiceInfo "django" "web"]> ∅)].
Proof.
  apply (last_service_info_reaches_exporter "web" "flask" "db" "django" "web"
           1 span_A1 new_tracer).
  reflexivity.
Defined.

(** ** Writing, and what can raise *)

(** X8: [write] of a non-empty list dumps it to the debug log exactly when
    debug logging is on, before looking at [enabled] and so whether or not
    the list is then sent: one line with the number of spans and the
    [enabled] flag, then one line per span, in order.  With debug logging
    off the log is untouched. *)
Theorem write_debug_dump (s : Span.t) (rest : list Span.t) (w : World) :
  log_output (world_after (write (s :: rest)) w) =
  log_output w ++
    (if debug_logging w
     then LogWriting (S (length rest)) (enabled w) :: map LogSpan (s :: rest)
     else []).
Proof.
  unfold world_after. rewrite write_nonempty. unfold dumped.
  destruct w as [en wr sm acc buf svc dbg src drawn made ex lg]. cbn.
  destruct en; [destruct wr|]; destruct dbg; cbn; rewrite ?app_nil_r; reflexivity.
Qed.

Lemma write_with_writer (spans : list Span.t) (w : World) :
  is_not_None (writer w) = true ->
  exists w', write spans w = (Returned tt, w') /\ writer w' = writer w.
Proof.
  intros Hwr. destruct spans as [|s rest].
  - exists w. split; reflexivity.
  - rewrite write_nonempty. unfold dumped.
    destruct w as [en wr sm acc buf svc dbg src drawn made ex lg]. cbn in *.
    destruct wr; [|discriminate].
    destruct en, dbg; eexists; split; reflexivity.
Qed.

Lemma configure_keeps_a_writer (en : option bool) (host : option string)
    (prt : option Z) (smp : option Sampler) (w : World) :
  is_not_None (writer w) = true ->
  exists w',
    configure en host prt smp w = (Returned tt, w') /\
    is_not_None (writer w') = true.
Proof.
  intros Hwr. unfold configure. unfold_monad.
  destruct w, en, host, prt, smp; cbn in *; eexists; split; reflexivity || exact Hwr.
Qed.

(** X9: once the tracer has a writer, as every constructed tracer has, no
    method ever raises, in whatever order and with whatever arguments the
    methods are called, [write] included; and the tracer still has a writer
    afterwards. *)
Theorem methods_never_raise (ms : list Method) (w : World) :
  is_not_None (writer w) = true ->
  exists w',
    invoke_all ms w = (Returned tt, w') /\
    is_not_None (writer w') = true.
Proof.
  revert w. induction ms as [|m rest IH]; intros w Hwr.
  - exists w. split; [reflexivity|exact Hwr].
  - assert (Hstep : exists w1, invoke m w = (Returned tt, w1) /\
                               is_not_None (writer w1) = true).
    { destruct m as [en host prt smp|thread name service resource span_type
                     |thread|thread|thread span|spans|service app app_type];
        cbn [invoke].
      - apply configure_keeps_a_writer. exact Hwr.
      - destruct (trace_effect thread name service resource span_type w)
          as (S & w1 & Heq & (_ & Hw & _) & _).
        exists w1. unfold bind, ret. rewrite Heq. split; [reflexivity|congruence].
      - exists w. split; [reflexivity|exact Hwr].
      - eexists. split; [reflexivity|]. destruct w; exact Hwr.
      - destruct (record_effect thread span w) as (w1 & Heq & (_ & Hw & _) & _).
        exists w1. split; [exact Heq|congruence].
      - destruct (write_with_writer spans w Hwr) as (w1 & Heq & Hw).
        exists w1. split; [exact Heq|congruence].
      - rewrite set_service_info_eq. eexists. split; [reflexivity|].
        destruct w; exact Hwr. }
    destruct Hstep as (w1 & Heq & Hwr1).
    destruct (IH w1 Hwr1) as (w' & Hrun & Hwr').
    exists w'. cbn [invoke_all]. unfold bind at 1. rewrite Heq.
    split; [exact Hrun|exact Hwr'].
Qed.

Lemma methods_never_raise_witness :
  exists w',
    invoke_all [MConfigure (Some false) None (Some 0) None;
                MWrite [span_A1];
                MRecord 1 span_A1;
                MClearCurrentSpan 1;
                MConfigure (Some true) None None None;
                MWrite [span_A1]] new_tracer = (Returned tt, w') /\
    is_not_None (writer w') = true.
Proof.
  apply (methods_never_raise
           [MConfigure (Some false) None (Some 0) None;
            MWrite [span_A1];
            MRecord 1 span_A1;
            MClearCurrentSpan 1;
            MConfigure (Some true) None None None;
            MWrite [span_A1]] new_tracer).
  reflexivity.
Defined.

(** ** Nothing is lost between two flushes *)

(** X10: while the tracer is enabled and has a writer, and every finished
    span that has no parent is sampled, nothing that is finished is lost or
    duplicated: the lists the exporter receives, one after the other,
    followed by what is still buffered, are exactly what was buffered
    followed by the finished spans, in the order in which they finished.
    Every list goes to that writer, with the service registry. *)
Theorem finished_spans_are_conserved (calls : list Call) (w : World)
    (aw : AgentWriter.t) :
  enabled w = true ->
  writer w = Some aw ->
  forallb (fun s => Span.truthy (Span._parent s) || Span.sampled s) (finished calls)
    = true ->
  exists w' new,
    run calls w = (Returned tt, w') /\
    exported w' = exported w ++ new /\
    concat (map spans_sent new) ++ _spans w' = _spans w ++ finished calls /\
    Forall (fun d => to_writer d = aw /\ services_sent d = _services w) new.
Proof.
  revert w. induction calls as [|c rest IH]; intros w Hen Hwr Hall.
  - exists w, []. cbn. rewrite !app_nil_r. repeat split. constructor.
  - destruct (perform_effect c w) as (w1 & Hc & Hsetup & Hstep).
    assert (Hen1 : enabled w1 = true) by (destruct Hsetup as (-> & _); exact Hen).
    assert (Hwr1 : writer w1 = Some aw)
      by (destruct Hsetup as (_ & -> & _); exact Hwr).
    assert (Hsv1 : _services w1 = _services w)
      by (destruct Hsetup as (_ & _ & _ & -> & _); reflexivity).
    cbn [run]. unfold bind at 1. rewrite Hc.
    destruct c as [thread name service resource span_type|thread span];
      cbn [finished] in *.
    + destruct Hstep as [Hacc Hex1].
      destruct (IH w1 Hen1 Hwr1 Hall) as (w' & new & Hrun & Hex & Hcons & Hto).
      exists w', new. rewrite Hex, Hex1, Hcons, Hacc, <- Hsv1.
      repeat split; assumption.
    + cbn [forallb] in Hall. apply andb_prop in Hall as [Hs Hall].
      destruct Hstep as [Hacc Hex1].
      destruct (IH w1 Hen1 Hwr1 Hall) as (w' & new & Hrun & Hex & Hcons & Hto).
      rewrite Hsv1 in Hto.
      unfold flushes in Hex1. rewrite Hwr, Hen in Hex1. cbn in Hex1.
      destruct (Span.truthy (Span._parent span)) eqn:Hp; cbn in Hex1, Hs.
      * exists w', new. rewrite app_nil_r in Hex1.
        rewrite Hex, Hex1, Hcons, Hacc, <- app_assoc.
        repeat split; assumption.
      * rewrite Hs in Hex1. cbn in Hex1.
        exists w', (Build_Delivery aw (_spans w ++ [span]) (_services w) :: new).
        split; [exact Hrun|].
        split; [rewrite Hex, Hex1, <- app_assoc; reflexivity|].
        split.
        { cbn. rewrite <- !app_assoc, Hcons, Hacc. reflexivity. }
        constructor; [split; reflexivity|exact Hto].
Qed.

Lemma finished_spans_are_conserved_witness :
  exists w' new,
    run [Finish 1 span_A2; Finish 2 span_B2; Finish 2 span_B1; Finish 1 span_A1]
        new_tracer = (Returned tt, w') /\
    exported w' = exported new_tracer ++ new /\
    concat (map spans_sent new) ++ _spans w'
      = [span_A2; span_B2; span_B1; span_A1] /\
    Forall (fun d => to_writer d = AgentWriter.Build 0 "localhost" 7777 /\
                     services_sent d = ∅) new.
Proof.
  apply (finished_spans_are_conserved
           [Finish 1 span_A2; Finish 2 span_B2; Finish 2 span_B1; Finish 1 span_A1]
           new_tracer (AgentWriter.Build 0 "localhost" 7777)); reflexivity.
Defined.

(** ** More on the decorator *)

Lemma trace_parent_is_current (thread : nat) (name : string)
    (service resource span_type : option string) (w w' : World) (S : Span.t) :
  trace thread name service resource span_type w = (Returned S, w') ->
  Span._parent S = ThreadLocalSpanBuffer.get thread (span_buffer w) /\
  Span.name S = name /\
  ThreadLocalSpanBuffer.get thread (span_buffer w') = Some S.
Proof.
  intros Heq.
  destruct (ThreadLocalSpanBuffer.get thread (span_buffer w)) as [p|] eqn:Hget.
  - rewrite (trace_child_eq _ _ _ _ _ _ _ Hget) in Heq. injection Heq as <- <-.
    destruct w; cbn. rewrite buffer_get_set. repeat split.
  - rewrite (trace_root_eq _ _ _ _ _ _ Hget) in Heq. injection Heq as <- <-.
    destruct w; cbn. rewrite buffer_get_set. repeat split.
Qed.

(** X11: a call of a wrapped function, whatever the function does to the
    tracer and whether it returns or raises, leaves the calling thread with
    the current span it had before the call. *)
Theorem wrap_restores_current_span (name service resource span_type : option string)
    (func : PyFunc) (thread : nat) (a : CallArgs) (w : World) :
  ThreadLocalSpanBuffer.get thread
    (span_buffer
       (world_after (call (wrap name service resource span_type func) thread a) w))
  = ThreadLocalSpanBuffer.get thread (span_buffer w).
Proof.
  destruct (wrap_call name service resource span_type func thread a w)
    as (span & w1 & w3 & Htrace & Hrec & Hcall).
  unfold world_after. rewrite Hcall. cbn [snd].
  destruct (trace_parent_is_current _ _ _ _ _ _ _ _ Htrace) as (Hparent & _).
  destruct (record_effect thread span (snd (call func thread a w1)))
    as (w3' & Hrec' & _ & _ & Hbuf & _).
  rewrite Hrec in Hrec'. injection Hrec' as <-.
  rewrite Hbuf, buffer_get_set. exact Hparent.
Qed.

(** X12: what a call of the wrapper is made of.  A span is opened from the
    calling thread, named after the function when [wrap] was given no name
    and with the given name otherwise, the empty string included; the
    function runs with this span as the current span of the thread, with
    the arguments of the call; the span is recorded after the function,
    whether it returned or raised; an exception of the function is raised
    by the wrapper, the same one; the wrapper keeps the [__name__] of the
    function. *)
Theorem wrap_runs_function_in_span (name service resource span_type : option string)
    (func : PyFunc) (thread : nat) (a : CallArgs) (w : World) :
  exists span w1 w3,
    trace thread
          match name with
          | None => __name__ func
          | Some n => n
          end service resource span_type w = (Returned span, w1) /\
    Span.name span = match name with
                     | None => __name__ func
                     | Some n => n
                     end /\
    current_span thread w1 = (Returned (Some span), w1) /\
    record thread span (snd (call func thread a w1)) = (Returned tt, w3) /\
    world_after (call (wrap name service resource span_type func) thread a) w = w3 /\
    match fst (call func thread a w1) with
    | Raised e =>
        outcome_of (call (wrap name service resource span_type func) thread a) w
        = Raised e
    | Returned _ =>
        outcome_of (call (wrap name service resource span_type func) thread a) w
        = Returned PyNone
    end /\
    __name__ (wrap name service resource span_type func) = __name__ func.
Proof.
  destruct (wrap_call name service resource span_type func thread a w)
    as (span & w1 & w3 & Htrace & Hrec & Hcall).
  destruct (trace_parent_is_current _ _ _ _ _ _ _ _ Htrace) as (_ & Hname & Hcur).
  exists span, w1, w3.
  split; [exact Htrace|]. split; [exact Hname|].
  split; [unfold current_span, span_buffer_get, gets; rewrite Hcur; reflexivity|].
  split; [exact Hrec|].
  unfold world_after, outcome_of. rewrite Hcall. cbn [fst snd].
  split; [reflexivity|]. split; [|reflexivity].
  destruct (fst (call func thread a w1)); reflexivity.
Qed.

(** ** Trace identifiers along a trace *)




(** A root made by [trace] starts a linked chain. *)
Lemma trace_root_linked (thread : nat) (name : string)
    (service resource span_type : option string) (w w' : World) (S : Span.t) :
  ThreadLocalSpanBuffer.get thread (span_buffer w) = None ->
  trace thread name service resource span_type w = (Returned S, w') ->
  trace_linked S = true /\ root_of S = S.
Proof.
  intros Hget Heq.
  rewrite (trace_root_eq _ _ _ _ _ _ Hget) in Heq. injection Heq as <- _.
  split; reflexivity.
Qed.

(** ** Finishing twice, reconfiguring in between *)

(** X14: [record] is not idempotent.  Recording twice in a row a span that
    has no parent, sampled and with the tracer enabled, hands two lists to
    the exporter: the buffer with the span at its end, then the span
    alone. *)
Theorem record_twice_delivers_twice (thread : nat) (span : Span.t) (w : World) :
  flushes w span = true ->
  exists aw w',
    writer w = Some aw /\
    (record thread span ;; record thread span) w = (Returned tt, w') /\
    exported w' = exported w ++
      [Build_Delivery aw (_spans w ++ [span]) (_services w);
       Build_Delivery aw [span] (_services w)] /\
    _spans w' = [].
Proof.
  intros Hf. destruct (flushes_writer _ _ Hf) as [aw Haw].
  pose proof (flushes_root _ _ Hf) as Hroot.
  destruct (record_effect thread span w)
    as (w1 & E1 & S1 & _ & _ & Acc1 & Ex1 & _).
  destruct (record_effect thread span w1)
    as (w2 & E2 & _ & _ & _ & Acc2 & Ex2 & _).
  rewrite (same_setup_flushes _ _ span S1), Hf in Ex2.
  destruct S1 as (_ & Hwr1 & _ & Hsv1 & _).
  rewrite Hwr1, Haw, Hsv1 in Ex2. rewrite Hf, Haw in Ex1.
  rewrite Hroot in Acc1, Acc2. cbn in Acc1, Acc2. rewrite Acc1 in Ex2.
  exists aw, w2. split; [exact Haw|]. split.
  { unfold bind. rewrite E1. exact E2. }
  split; [|exact Acc2].
  rewrite Ex2, Ex1, <- app_assoc. reflexivity.
Qed.

Lemma record_twice_delivers_twice_witness :
  exists aw w',
    writer new_tracer = Some aw /\
    (record 1 span_A1 ;; record 1 span_A1) new_tracer = (Returned tt, w') /\
    exported w' =
      [Build_Delivery aw [span_A1] ∅; Build_Delivery aw [span_A1] ∅] /\
    _spans w' = [].
Proof.
  apply (record_twice_delivers_twice 1 span_A1 new_tracer). reflexivity.
Defined.

(** X15: spans buffered before the writer is replaced go to the new writer.
    When [configure] is given a hostname or a port and a sampled span with
    no parent is then recorded, the tracer being enabled, the whole buffer,
    spans recorded before the call of [configure] included, is handed to the
    writer that [configure] made, even when the tracer had no writer
    before. *)
Theorem buffered_spans_go_to_new_writer (host : option string) (prt : option Z)
    (thread : nat) (span : Span.t) (w : World) :
  is_not_None host || is_not_None prt = true ->
  Span._parent span = None ->
  Span.sampled span = true ->
  enabled w = true ->
  exists w',
    (configure None host prt None ;; record thread span) w = (Returned tt, w') /\
    writer w' =
      Some (AgentWriter.Build (writers_made w)
              (or_default str_truthy host DEFAULT_HOSTNAME)
              (or_default int_truthy prt DEFAULT_PORT)) /\
    exported w' = exported w ++
      [Build_Delivery
         (AgentWriter.Build (writers_made w)
            (or_default str_truthy host DEFAULT_HOSTNAME)
            (or_default int_truthy prt DEFAULT_PORT))
         (_spans w ++ [span]) (_services w)].
Proof.
  intros Hgiven Hroot Hs Hen.
  set (aw := AgentWriter.Build (writers_made w)
               (or_default str_truthy host DEFAULT_HOSTNAME)
               (or_default int_truthy prt DEFAULT_PORT)).
  assert (Hconf : configure None host prt None w
                  = (Returned tt, set_writer (Some aw) (set_writers_made (S (writers_made w)) w))).
  { unfold configure. unfold_monad. rewrite Hgiven. destruct w; reflexivity. }
  set (w1 := set_writer _ _) in Hconf.
  destruct (record_effect thread span w1)
    as (w' & Heq & (_ & Hwr & _) & _ & _ & _ & Hex & _).
  assert (Hf : flushes w1 span = true).
  { apply (flushes_true w1 span aw Hroot); [|exact Hs|];
      subst w1; destruct w; [reflexivity|exact Hen]. }
  rewrite Hf in Hex.
  exists w'. split; [unfold bind; rewrite Hconf; exact Heq|].
  split; [rewrite Hwr; subst w1; destruct w; reflexivity|].
  rewrite Hex. subst w1. destruct w; reflexivity.
Qed.

Lemma buffered_spans_go_to_new_writer_witness :
  exists w',
    (configure None (Some "agent") None None ;; record 1 span_A1)
      (set__spans [span_A2] new_tracer) = (Returned tt, w') /\
    writer w' = Some (AgentWriter.Build 1 "agent" 7777) /\
    exported w' =
      [Build_Delivery (AgentWriter.Build 1 "agent" 7777) [span_A2; span_A1] ∅].
Proof.
  apply (buffered_spans_go_to_new_writer (Some "agent") None 1 span_A1
           (set__spans [span_A2] new_tracer)); reflexivity.
Defined.
